(** * Content protection engine: session store, status aggregation and
      breach response of [src/index.js], embedded shallowly.

    The class [ContentProtectionAPI] becomes a record [Engine] threaded
    through a state monad.  The four detector modules, the helpers of
    [utils/helpers] and the wall clock are collaborators whose code is not
    part of the engine: they are the variables of the section, acting on an
    opaque [World].  An [async] function is run up to its first suspension;
    the one suspension a caller does not wait for (the notification awaited
    inside [handleSecurityBreach]) leaves an explicit continuation in the
    engine, resumed by [settle_notification]. *)

From Stdlib Require Import Sorting.Sorted DecimalString.
From stdpp Require Import gmap strings list fin_maps.

(** ** Settled promises *)

(** The two ways a promise settles; a rejection carries the error message. *)
Inductive Outcome (A : Type) : Type :=
| Resolved (a : A)
| Rejected (e : string).
Arguments Resolved {A} a.
Arguments Rejected {A} e.

Definition is_resolved {A} (o : Outcome A) : bool :=
  match o with Resolved _ => true | Rejected _ => false end.

(** [Promise.all] over the four-element array literal: the tuple of values
    when every promise resolves, otherwise a rejection.  (JavaScript rejects
    with the reason that arrives first in time; the array order is taken
    here, nothing in the engine looks at the reason.) *)
Definition Promise_all4 {A B C D} (a : Outcome A) (b : Outcome B)
    (c : Outcome C) (d : Outcome D) : Outcome (A * B * C * D) :=
  match a, b, c, d with
  | Resolved x, Resolved y, Resolved z, Resolved u => Resolved (x, y, z, u)
  | Rejected e, _, _, _ => Rejected e
  | _, Rejected e, _, _ => Rejected e
  | _, _, Rejected e, _ => Rejected e
  | _, _, _, Rejected e => Rejected e
  end.

(** ** JavaScript values used as conditions *)

(** Truthiness of a property that is either [undefined] or a string. *)
Definition truthy (v : option string) : bool :=
  match v with
  | Some s => negb (String.eqb s EmptyString)
  | None => false
  end.

(** [v || d] on such a property. *)
Definition or_default (v : option string) (d : string) : string :=
  match v with
  | Some s => if String.eqb s EmptyString then d else s
  | None => d
  end.

Definition Timestamp : Type := string.

(** ** Configuration (constructor, lines 13-21) *)

Record RawConfig : Type := {
  raw_apiKey : option string;
  raw_serviceName : option string;
  raw_sensitivityLevel : option string;
  raw_blockingStrategy : option string;
  raw_notificationEndpoint : option string;
  raw_loggingLevel : option string
}.

Record Config : Type := {
  apiKey : option string;
  serviceName : option string;
  sensitivityLevel : string;
  blockingStrategy : string;
  notificationEndpoint : option string;
  loggingLevel : string
}.

Definition mkConfig (config : RawConfig) : Config :=
  {| apiKey := raw_apiKey config;
     serviceName := raw_serviceName config;
     sensitivityLevel := or_default (raw_sensitivityLevel config) "medium";
     blockingStrategy := or_default (raw_blockingStrategy config) "immediate";
     notificationEndpoint := raw_notificationEndpoint config;
     loggingLevel := or_default (raw_loggingLevel config) "info" |}.

(** ** Session status *)

(** The three strings ever assigned to [session.status]. *)
Inductive Status : Type := active | terminated | closed.

#[global] Instance Status_eq_dec : EqDecision Status.
Proof. solve_decision. Defined.

Definition is_terminal (s : Status) : bool :=
  match s with active => false | terminated | closed => true end.

(** The keys of [this.modules], in insertion order. *)
Inductive ModuleName : Type :=
| vpnDetectionModule
| networkAnalysisModule
| anomalyDetectionModule
| contentFingerprintingModule.

#[global] Instance ModuleName_eq_dec : EqDecision ModuleName.
Proof. solve_decision. Defined.

(** The [type] strings of a threat: 'vpn', 'network', 'anomaly',
    'fingerprint'. *)
Inductive ThreatType : Type := vpn | network | anomaly | fingerprint.

#[global] Instance ThreatType_eq_dec : EqDecision ThreatType.
Proof. solve_decision. Defined.


Section Engine.

(** Payloads the engine only passes along: [SessionInfo], [Details],
    [Anomaly], [FingerprintData].  [World] is everything outside the engine
    object: the internal state of the detector modules, the id generator,
    the clock, the notification sink. *)
Context {SessionInfo Details Anomaly FingerprintData World : Type}.

(** *** Detector results *)

(** Modelled from the spec: the result shapes of the four detector modules
    ([modules/vpnDetection], [modules/networkAnalysis],
    [modules/anomalyDetection], [modules/contentFingerprinting]), whose
    sources are not part of the engine file. *)
Record VpnStatus : Type := { detected : bool; vpn_details : Details }.
Record NetworkStatus : Type := { suspicious : bool; network_details : Details }.
Record AnomalyStatus : Type := { anomalies : list Anomaly }.
Record FingerprintStatus : Type := { valid : bool; fingerprint_details : Details }.

Inductive DetectorResult : Type :=
| VpnResult (r : VpnStatus)
| NetworkResult (r : NetworkStatus)
| AnomalyResult (r : AnomalyStatus)
| FingerprintResult (r : FingerprintStatus).

(** [{ type, details }] *)
Record Threat : Type := { type : ThreatType; details : DetectorResult }.

(** *** The capability contract of a detector module *)

(** Modelled from the spec: the outbound capability contract of a detector,
    [initialize(sessionInfo, config) -> void] and
    [checkStatus(sessionId) -> DetectorResult], each returning a promise
    that may reject, and an optional [cleanup(sessionId) -> void]. *)
Record Detector (R : Type) : Type := {
  mod_initialize : SessionInfo -> Config -> World -> Outcome unit * World;
  mod_checkStatus : string -> World -> Outcome R * World;
  mod_cleanup : option (string -> World -> World)
}.
Arguments mod_initialize {R} _ _ _ _.
Arguments mod_checkStatus {R} _ _ _.
Arguments mod_cleanup {R} _.

(** [this.modules] *)
Record Modules : Type := {
  vpnDetection : Detector VpnStatus;
  networkAnalysis : Detector NetworkStatus;
  anomalyDetection : Detector AnomalyStatus;
  contentFingerprinting : Detector FingerprintStatus
}.

(** *** Records built by the engine *)

(** A value of [this.sessions]; the three optional properties are absent
    until [terminateStream] or [cleanup] assigns them. *)
Record Session : Type := {
  info : SessionInfo;
  startTime : Timestamp;
  status : Status;
  terminatedReason : option string;
  terminatedAt : option Timestamp;
  closedAt : option Timestamp
}.

Record InitResult : Type := {
  init_sessionId : string;
  securityToken : string;
  fingerprintData : FingerprintData
}.

(** The normal result of [checkSecurityStatus] (lines 86-91). *)
Record SecurityStatus : Type := {
  secure : bool;
  timestamp : Timestamp;
  sessionId : string;
  threats : list Threat
}.

(** The result for an unknown session (lines 63-67): three properties,
    none of them [threats]. *)
Record InvalidSession : Type := {
  error : string;
  invalid_secure : bool;
  invalid_timestamp : Timestamp
}.

Inductive CheckResult : Type :=
| Invalid (r : InvalidSession)
| Verdict (s : SecurityStatus).

(** [{ action: 'terminate', reason, sessionId, timestamp }] *)
Record TerminationResult : Type := {
  terminate_action : string;
  reason : string;
  terminate_sessionId : string;
  terminate_timestamp : Timestamp
}.

(** [{ action: 'degrade', sessionId, timestamp }] *)
Record DegradeResult : Type := {
  degrade_action : string;
  degrade_sessionId : string;
  degrade_timestamp : Timestamp
}.

(** [{ action: 'warning', sessionId, threats, timestamp }] *)
Record WarningResult : Type := {
  warning_action : string;
  warning_sessionId : string;
  warning_threats : list Threat;
  warning_timestamp : Timestamp
}.

Inductive ActionResult : Type :=
| Terminate (r : TerminationResult)
| Degrade (r : DegradeResult)
| Warning (r : WarningResult).

(** The object built by [logSecurityEvent]; its only caller passes the
    threat list as [data]. *)
Record LogRecord : Type := {
  log_timestamp : Timestamp;
  log_sessionId : string;
  eventType : string;
  data : list Threat
}.

(** The object sent to the notification endpoint (lines 107-112). *)
Record Notification : Type := {
  notify_sessionId : string;
  notify_timestamp : Timestamp;
  notify_threats : list Threat;
  notify_action : string
}.

(** What the engine does that is visible outside a method's return value,
    in the order it happens. *)
Inductive Event : Type :=
| ModuleInitialize (m : ModuleName)
| ModuleCheckStatus (m : ModuleName) (sessionId : string)
| ModuleCleanup (m : ModuleName) (sessionId : string)
| BreachHandler (sessionId : string) (threats : list Threat)
| ConsoleLog (l : LogRecord)
| Notify (endpoint : string) (payload : Notification)
| TerminateStream (sessionId reason : string)
| DegradeStreamQuality (sessionId : string)
| IssueWarning (sessionId : string).

(** The rest of [handleSecurityBreach] after its [await]: the variables
    the closure keeps. *)
Record PendingBreach : Type := {
  pending_sessionId : string;
  pending_threats : list Threat
}.

(** The promise [handleSecurityBreach] hands back to its caller. *)
Inductive BreachPromise : Type :=
| Fulfilled (a : ActionResult)
| AwaitingNotification.

(** The engine object, with the call record and the suspended breach
    handlers next to it. *)
Record Engine : Type := {
  config : Config;
  sessions : gmap string Session;
  isInitialized : bool;
  world : World;
  trace : list Event;
  pending : list PendingBreach
}.

Definition set_sessions (m : gmap string Session) (st : Engine) : Engine :=
  {| config := config st; sessions := m; isInitialized := isInitialized st;
     world := world st; trace := trace st; pending := pending st |}.

Definition set_isInitialized (b : bool) (st : Engine) : Engine :=
  {| config := config st; sessions := sessions st; isInitialized := b;
     world := world st; trace := trace st; pending := pending st |}.

Definition set_world (w : World) (st : Engine) : Engine :=
  {| config := config st; sessions := sessions st;
     isInitialized := isInitialized st;
     world := w; trace := trace st; pending := pending st |}.

Definition set_trace (t : list Event) (st : Engine) : Engine :=
  {| config := config st; sessions := sessions st;
     isInitialized := isInitialized st;
     world := world st; trace := t; pending := pending st |}.

Definition set_pending (p : list PendingBreach) (st : Engine) : Engine :=
  {| config := config st; sessions := sessions st;
     isInitialized := isInitialized st;
     world := world st; trace := trace st; pending := p |}.

(** *** The state monad of the engine *)

Definition St (A : Type) : Type := Engine -> A * Engine.

Definition ret {A} (a : A) : St A := fun st => (a, st).

Definition bind {A B} (m : St A) (k : A -> St B) : St B :=
  fun st => k (fst (m st)) (snd (m st)).

Notation "x <- m ;; k" := (bind m (fun x => k))
  (at level 62, m at next level, right associativity).
Notation "m ;;; k" := (bind m (fun _ => k))
  (at level 62, right associativity).

(** A call that leaves the engine. *)
Definition extern {A} (f : World -> A * World) : St A :=
  fun st => (fst (f (world st)), set_world (snd (f (world st))) st).

Definition emit (e : Event) : St unit :=
  fun st => (tt, set_trace (trace st ++ [e]) st).

Definition modify (f : Engine -> Engine) : St unit :=
  fun st => (tt, f st).

Definition gets {A} (f : Engine -> A) : St A :=
  fun st => (f st, st).

(** *** Collaborators *)

(** [new Date().toISOString()] *)
Variable clock : World -> Timestamp * World.
(** [generateUniqueId], [generateSecurityToken], [notifySecurityEvent] of
    [utils/helpers]; the last one starts the delivery, whose settlement
    arrives later. *)
Variable generateUniqueId : World -> string * World.
Variable generateSecurityToken : SessionInfo -> Config -> World -> string * World.
Variable notifySecurityEvent : string -> Notification -> World -> World.
(** [contentFingerprinting.getClientFingerprint()] *)
Variable getClientFingerprint : World -> FingerprintData * World.
Variable modules : Modules.

Definition now : St Timestamp := extern clock.

(** [this.sessions.has(sessionId)] *)
Definition has (sessionId : string) : St bool :=
  gets (fun st => bool_decide (is_Some (sessions st !! sessionId))).

(** Calling a method of a module: the call is recorded, the module acts on
    the world and hands back its promise. *)
Definition call_module {A} (e : Event) (f : World -> A * World) : St A :=
  emit e ;;; extern f.

(** [this.sessions.get(sessionId)] *)
Definition get (sessionId : string) : St (option Session) :=
  gets (fun st => sessions st !! sessionId).

(** [this.sessions.set(sessionId, session)] *)
Definition set (sessionId : string) (session : Session) : St unit :=
  modify (fun st => set_sessions (<[sessionId := session]> (sessions st)) st).

(** *** Constructor (lines 13-32) *)

Definition ContentProtectionAPI (config : RawConfig) (w : World) : Engine :=
  {| config := mkConfig config;
     sessions := ∅;
     isInitialized := false;
     world := w;
     trace := [];
     pending := [] |}.

(** *** initialize (lines 34-59) *)

(** The array literal handed to [Promise.all]: the four calls are made in
    order, each returning its promise. *)
Definition initialize_modules (sessionInfo : SessionInfo)
  : St (Outcome unit * Outcome unit * Outcome unit * Outcome unit) :=
  c <- gets config ;;
  p1 <- call_module (ModuleInitialize vpnDetectionModule)
          (mod_initialize (vpnDetection modules) sessionInfo c) ;;
  p2 <- call_module (ModuleInitialize networkAnalysisModule)
          (mod_initialize (networkAnalysis modules) sessionInfo c) ;;
  p3 <- call_module (ModuleInitialize anomalyDetectionModule)
          (mod_initialize (anomalyDetection modules) sessionInfo c) ;;
  p4 <- call_module (ModuleInitialize contentFingerprintingModule)
          (mod_initialize (contentFingerprinting modules) sessionInfo c) ;;
  ret (p1, p2, p3, p4).

Definition new_session (sessionInfo : SessionInfo) (t : Timestamp) : Session :=
  {| info := sessionInfo; startTime := t; status := active;
     terminatedReason := None; terminatedAt := None; closedAt := None |}.

Definition initialize (sessionInfo : SessionInfo) : St (Outcome InitResult) :=
  sessionId <- extern generateUniqueId ;;
  ps <- initialize_modules sessionInfo ;;
  match ps with
  | (p1, p2, p3, p4) =>
      match Promise_all4 p1 p2 p3 p4 with
      | Rejected e => ret (Rejected e)
      | Resolved _ =>
          t <- now ;;
          set sessionId (new_session sessionInfo t) ;;;
          modify (set_isInitialized true) ;;;
          c <- gets config ;;
          token <- extern (generateSecurityToken sessionInfo c) ;;
          fp <- extern getClientFingerprint ;;
          ret (Resolved {| init_sessionId := sessionId;
                           securityToken := token;
                           fingerprintData := fp |})
      end
  end.

(** *** logSecurityEvent (lines 187-204) *)

Definition should_log (level eventType : string) : bool :=
  String.eqb level "debug"
  || (String.eqb level "info" && negb (String.eqb eventType "routine"))
  || (String.eqb level "warning" && String.eqb eventType "breach").

Definition logSecurityEvent (sessionId eventType : string)
    (data : list Threat) : St LogRecord :=
  t <- now ;;
  let logData := {| log_timestamp := t; log_sessionId := sessionId;
                    eventType := eventType; data := data |} in
  level <- gets (fun st => loggingLevel (config st)) ;;
  (if should_log level eventType then emit (ConsoleLog logData) else ret tt) ;;;
  ret logData.

(** *** terminateStream (lines 128-145) *)

Definition terminate (session : Session) (reason : string) (t : Timestamp)
  : Session :=
  {| info := info session; startTime := startTime session;
     status := terminated;
     terminatedReason := Some reason;
     terminatedAt := Some t;
     closedAt := closedAt session |}.

Definition terminateStream (sessionId reason : string) : St TerminationResult :=
  emit (TerminateStream sessionId reason) ;;;
  o <- get sessionId ;;
  match o with
  | Some session =>
      t <- now ;;
      set sessionId (terminate session reason t)
  | None => ret tt
  end ;;;
  t <- now ;;
  ret {| terminate_action := "terminate";
         reason := reason;
         terminate_sessionId := sessionId;
         terminate_timestamp := t |}.

(** *** degradeStreamQuality (lines 147-154), issueWarning (156-164) *)

Definition degradeStreamQuality (sessionId : string) : St DegradeResult :=
  emit (DegradeStreamQuality sessionId) ;;;
  t <- now ;;
  ret {| degrade_action := "degrade";
         degrade_sessionId := sessionId;
         degrade_timestamp := t |}.

Definition issueWarning (sessionId : string) (threats : list Threat)
  : St WarningResult :=
  emit (IssueWarning sessionId) ;;;
  t <- now ;;
  ret {| warning_action := "warning";
         warning_sessionId := sessionId;
         warning_threats := threats;
         warning_timestamp := t |}.

(** *** handleSecurityBreach (lines 101-126) *)

(** The [switch] on [this.config.blockingStrategy] (lines 116-125). *)
Definition blockingStrategy_switch (sessionId : string)
    (threats : list Threat) : St ActionResult :=
  strategy <- gets (fun st => blockingStrategy (config st)) ;;
  if String.eqb strategy "immediate" then
    r <- terminateStream sessionId "Security violation detected" ;;
    ret (Terminate r)
  else if String.eqb strategy "degraded" then
    r <- degradeStreamQuality sessionId ;; ret (Degrade r)
  else if String.eqb strategy "warning" then
    r <- issueWarning sessionId threats ;; ret (Warning r)
  else
    r <- terminateStream sessionId "Security violation detected" ;;
    ret (Terminate r).

(** The body up to its first suspension.  With a truthy endpoint the
    delivery is started and the function suspends on it: what is left of
    the body is queued in [pending].  Otherwise the [switch] runs at once. *)
Definition handleSecurityBreach (sessionId : string) (threats : list Threat)
  : St BreachPromise :=
  emit (BreachHandler sessionId threats) ;;;
  logSecurityEvent sessionId "breach" threats ;;;
  c <- gets config ;;
  match notificationEndpoint c with
  | Some endpoint =>
      if truthy (notificationEndpoint c) then
        t <- now ;;
        let payload := {| notify_sessionId := sessionId;
                          notify_timestamp := t;
                          notify_threats := threats;
                          notify_action := blockingStrategy c |} in
        call_module (Notify endpoint payload)
          (fun w => (tt, notifySecurityEvent endpoint payload w)) ;;;
        modify (fun st =>
          set_pending (pending st ++
            [{| pending_sessionId := sessionId;
                pending_threats := threats |}]) st) ;;;
        ret AwaitingNotification
      else
        a <- blockingStrategy_switch sessionId threats ;; ret (Fulfilled a)
  | None =>
      a <- blockingStrategy_switch sessionId threats ;; ret (Fulfilled a)
  end.

(** The body after the [await] of line 107, once the delivery has settled:
    a rejection is rethrown out of the function, so its promise rejects and
    the [switch] is not run. *)
Definition handleSecurityBreach_resume (p : PendingBreach)
    (delivery : Outcome unit) : St (Outcome ActionResult) :=
  match delivery with
  | Rejected e => ret (Rejected e)
  | Resolved _ =>
      a <- blockingStrategy_switch (pending_sessionId p) (pending_threats p) ;;
      ret (Resolved a)
  end.

(** The delivery awaited by the [n]-th suspended handler settles. *)
Definition settle_notification (n : nat) (delivery : Outcome unit)
  : St (option (Outcome ActionResult)) :=
  ps <- gets pending ;;
  match ps !! n with
  | None => ret None
  | Some p =>
      modify (set_pending (delete n ps)) ;;;
      r <- handleSecurityBreach_resume p delivery ;;
      ret (Some r)
  end.

(** *** checkSecurityStatus (lines 61-99) *)

(** The array literal handed to [Promise.all] (lines 73-78). *)
Definition checkStatus_modules (sessionId : string)
  : St (Outcome VpnStatus * Outcome NetworkStatus
        * Outcome AnomalyStatus * Outcome FingerprintStatus) :=
  p1 <- call_module (ModuleCheckStatus vpnDetectionModule sessionId)
          (mod_checkStatus (vpnDetection modules) sessionId) ;;
  p2 <- call_module (ModuleCheckStatus networkAnalysisModule sessionId)
          (mod_checkStatus (networkAnalysis modules) sessionId) ;;
  p3 <- call_module (ModuleCheckStatus anomalyDetectionModule sessionId)
          (mod_checkStatus (anomalyDetection modules) sessionId) ;;
  p4 <- call_module (ModuleCheckStatus contentFingerprintingModule sessionId)
          (mod_checkStatus (contentFingerprinting modules) sessionId) ;;
  ret (p1, p2, p3, p4).

(** Lines 70 and 81-84: the four pushes onto [threats]. *)
Definition collect_threats (vpnStatus : VpnStatus)
    (networkStatus : NetworkStatus) (anomalyStatus : AnomalyStatus)
    (fingerprintStatus : FingerprintStatus) : list Threat :=
  let threats := [] in
  let threats :=
    if detected vpnStatus
    then threats ++ [{| type := vpn; details := VpnResult vpnStatus |}]
    else threats in
  let threats :=
    if suspicious networkStatus
    then threats ++ [{| type := network; details := NetworkResult networkStatus |}]
    else threats in
  let threats :=
    if 0 <? length (anomalies anomalyStatus)
    then threats ++ [{| type := anomaly; details := AnomalyResult anomalyStatus |}]
    else threats in
  let threats :=
    if negb (valid fingerprintStatus)
    then threats ++ [{| type := fingerprint;
                        details := FingerprintResult fingerprintStatus |}]
    else threats in
  threats.

Definition checkSecurityStatus (sessionId : string) : St (Outcome CheckResult) :=
  known <- has sessionId ;;
  if negb known then
    t <- now ;;
    ret (Resolved (Invalid {| error := "Invalid session";
                              invalid_secure := false;
                              invalid_timestamp := t |}))
  else
    ps <- checkStatus_modules sessionId ;;
    match ps with
    | (p1, p2, p3, p4) =>
        match Promise_all4 p1 p2 p3 p4 with
        | Rejected e => ret (Rejected e)
        | Resolved (vpnStatus, networkStatus, anomalyStatus, fingerprintStatus) =>
            let threats := collect_threats vpnStatus networkStatus
                             anomalyStatus fingerprintStatus in
            t <- now ;;
            let securityStatus :=
              {| secure := length threats =? 0;
                 timestamp := t;
                 sessionId := sessionId;
                 threats := threats |} in
            (if negb (secure securityStatus)
             then handleSecurityBreach sessionId threats ;;; ret tt
             else ret tt) ;;;
            ret (Resolved (Verdict securityStatus))
        end
    end.

(** *** cleanup (lines 166-185) *)

Definition close (session : Session) (t : Timestamp) : Session :=
  {| info := info session; startTime := startTime session;
     status := closed;
     terminatedReason := terminatedReason session;
     terminatedAt := terminatedAt session;
     closedAt := Some t |}.

(** One turn of the [forEach] over [Object.values(this.modules)]. *)
Definition cleanup_module {R} (m : ModuleName) (d : Detector R)
    (sessionId : string) : St unit :=
  match mod_cleanup d with
  | Some f =>
      call_module (ModuleCleanup m sessionId) (fun w => (tt, f sessionId w))
  | None => ret tt
  end.

Definition cleanup (sessionId : string) : St bool :=
  o <- get sessionId ;;
  match o with
  | None => ret false
  | Some session =>
      t <- now ;;
      set sessionId (close session t) ;;;
      cleanup_module vpnDetectionModule (vpnDetection modules) sessionId ;;;
      cleanup_module networkAnalysisModule (networkAnalysis modules) sessionId ;;;
      cleanup_module anomalyDetectionModule (anomalyDetection modules) sessionId ;;;
      cleanup_module contentFingerprintingModule
        (contentFingerprinting modules) sessionId ;;;
      ret true
  end.

(** ** Drivers used to state the properties *)

(** A call of one of the two methods that end a session. *)
Inductive LifecycleCall : Type :=
| CallTerminateStream (sessionId reason : string)
| CallCleanup (sessionId : string).

Definition run_call (c : LifecycleCall) : St unit :=
  match c with
  | CallTerminateStream sessionId reason =>
      terminateStream sessionId reason ;;; ret tt
  | CallCleanup sessionId => cleanup sessionId ;;; ret tt
  end.

Fixpoint run_calls (cs : list LifecycleCall) : St unit :=
  match cs with
  | [] => ret tt
  | c :: cs => run_call c ;;; run_calls cs
  end.

(** The events one [cleanup] produces: one per module that has a [cleanup]
    method, in the order of [Object.values]. *)
Definition cleanup_event {R} (m : ModuleName) (d : Detector R)
    (sessionId : string) : list Event :=
  match mod_cleanup d with
  | Some _ => [ModuleCleanup m sessionId]
  | None => []
  end.

Definition cleanup_events (sessionId : string) : list Event :=
  cleanup_event vpnDetectionModule (vpnDetection modules) sessionId
  ++ cleanup_event networkAnalysisModule (networkAnalysis modules) sessionId
  ++ cleanup_event anomalyDetectionModule (anomalyDetection modules) sessionId
  ++ cleanup_event contentFingerprintingModule
       (contentFingerprinting modules) sessionId.

(** What a module with a [cleanup] method does to the world; nothing for a
    module without one. *)
Definition cleanup_effect {R} (d : Detector R) (sessionId : string)
    (w : World) : World :=
  match mod_cleanup d with
  | Some f => f sessionId w
  | None => w
  end.

Definition checkStatus_events (sessionId : string) : list Event :=
  [ModuleCheckStatus vpnDetectionModule sessionId;
   ModuleCheckStatus networkAnalysisModule sessionId;
   ModuleCheckStatus anomalyDetectionModule sessionId;
   ModuleCheckStatus contentFingerprintingModule sessionId].

(** Events that only the breach response produces. *)
Definition breach_activity (e : Event) : bool :=
  match e with
  | BreachHandler _ _ | ConsoleLog _ | Notify _ _
  | TerminateStream _ _ | DegradeStreamQuality _ | IssueWarning _ => true
  | ModuleInitialize _ | ModuleCheckStatus _ _ | ModuleCleanup _ _ => false
  end.

(** Events of the [switch] of [handleSecurityBreach]. *)
Definition strategy_action (e : Event) : bool :=
  match e with
  | TerminateStream _ _ | DegradeStreamQuality _ | IssueWarning _ => true
  | _ => false
  end.

(** ** Frame lemmas: what a step leaves alone *)

(** [m] never changes the component [proj] of the engine. *)
Definition preserves {A X} (proj : Engine -> X) (m : St A) : Prop :=
  forall st, proj (snd (m st)) = proj st.

Lemma preserves_ret {A X} (proj : Engine -> X) (a : A) : preserves proj (ret a).
Proof. intros st. reflexivity. Qed.

Lemma preserves_bind {A B X} (proj : Engine -> X) (m : St A) (k : A -> St B) :
  preserves proj m -> (forall a, preserves proj (k a)) -> preserves proj (bind m k).
Proof. intros Hm Hk st. unfold bind. rewrite Hk. apply Hm. Qed.

Lemma preserves_gets {A X} (proj : Engine -> X) (f : Engine -> A) :
  preserves proj (gets f).
Proof. intros st. reflexivity. Qed.

Lemma preserves_if {A X} (proj : Engine -> X) (b : bool) (m1 m2 : St A) :
  preserves proj m1 -> preserves proj m2 -> preserves proj (if b then m1 else m2).
Proof. destruct b; auto. Qed.

Lemma extern_sessions {A} (f : World -> A * World) : preserves sessions (extern f).
Proof. intros st. reflexivity. Qed.

Lemma extern_config {A} (f : World -> A * World) : preserves config (extern f).
Proof. intros st. reflexivity. Qed.

Lemma extern_pending {A} (f : World -> A * World) : preserves pending (extern f).
Proof. intros st. reflexivity. Qed.

Lemma extern_trace {A} (f : World -> A * World) : preserves trace (extern f).
Proof. intros st. reflexivity. Qed.

Lemma extern_isInitialized {A} (f : World -> A * World) :
  preserves isInitialized (extern f).
Proof. intros st. reflexivity. Qed.

Lemma emit_sessions e : preserves sessions (emit e).
Proof. intros st. reflexivity. Qed.

Lemma emit_config e : preserves config (emit e).
Proof. intros st. reflexivity. Qed.

Lemma emit_pending e : preserves pending (emit e).
Proof. intros st. reflexivity. Qed.

Lemma emit_world e : preserves world (emit e).
Proof. intros st. reflexivity. Qed.

Lemma emit_isInitialized e : preserves isInitialized (emit e).
Proof. intros st. reflexivity. Qed.

Lemma set_config_frame sid s : preserves config (set sid s).
Proof. intros st. reflexivity. Qed.

Lemma set_pending_frame sid s : preserves pending (set sid s).
Proof. intros st. reflexivity. Qed.

Lemma set_trace_frame sid s : preserves trace (set sid s).
Proof. intros st. reflexivity. Qed.

Create HintDb frame discriminated.

#[local] Hint Resolve preserves_ret preserves_bind preserves_gets preserves_if
  extern_sessions extern_config extern_pending extern_trace extern_isInitialized
  emit_sessions emit_config emit_pending emit_world emit_isInitialized
  set_config_frame set_pending_frame set_trace_frame : frame.

(** Unfolds the named steps down to the primitive ones and lets the frame
    lemmas decide. *)
Ltac frame :=
  unfold now, has, get, call_module;
  repeat first
    [ apply preserves_bind; [| intros ? ]
    | apply preserves_if
    | solve [ auto with frame ] ].

Lemma now_sessions : preserves sessions now.
Proof. frame. Qed.

Lemma cleanup_module_sessions {R} m (d : Detector R) sid :
  preserves sessions (cleanup_module m d sid).
Proof. unfold cleanup_module. destruct (mod_cleanup d); frame. Qed.

Lemma cleanup_module_config {R} m (d : Detector R) sid :
  preserves config (cleanup_module m d sid).
Proof. unfold cleanup_module. destruct (mod_cleanup d); frame. Qed.

Lemma cleanup_module_pending {R} m (d : Detector R) sid :
  preserves pending (cleanup_module m d sid).
Proof. unfold cleanup_module. destruct (mod_cleanup d); frame. Qed.

Lemma cleanup_module_trace {R} m (d : Detector R) sid st :
  trace (snd (cleanup_module m d sid st)) = trace st ++ cleanup_event m d sid.
Proof.
  unfold cleanup_module, cleanup_event.
  destruct (mod_cleanup d); simpl; [reflexivity | by rewrite app_nil_r].
Qed.

Lemma cleanup_module_world {R} m (d : Detector R) sid st :
  world (snd (cleanup_module m d sid st)) = cleanup_effect d sid (world st).
Proof. unfold cleanup_module, cleanup_effect. by destruct (mod_cleanup d). Qed.

Lemma logSecurityEvent_sessions sid ty d :
  preserves sessions (logSecurityEvent sid ty d).
Proof. unfold logSecurityEvent. frame. Qed.

Lemma logSecurityEvent_pending sid ty d :
  preserves pending (logSecurityEvent sid ty d).
Proof. unfold logSecurityEvent. frame. Qed.

Lemma logSecurityEvent_config sid ty d :
  preserves config (logSecurityEvent sid ty d).
Proof. unfold logSecurityEvent. frame. Qed.

Lemma checkStatus_modules_sessions sid : preserves sessions (checkStatus_modules sid).
Proof. unfold checkStatus_modules. frame. Qed.

Lemma checkStatus_modules_pending sid : preserves pending (checkStatus_modules sid).
Proof. unfold checkStatus_modules. frame. Qed.

Lemma checkStatus_modules_config sid : preserves config (checkStatus_modules sid).
Proof. unfold checkStatus_modules. frame. Qed.

Lemma checkStatus_modules_trace sid st :
  trace (snd (checkStatus_modules sid st)) = trace st ++ checkStatus_events sid.
Proof.
  unfold checkStatus_modules, checkStatus_events, call_module, bind. simpl.
  by rewrite <- !app_assoc.
Qed.

Lemma initialize_modules_sessions i : preserves sessions (initialize_modules i).
Proof. unfold initialize_modules. frame. Qed.


Lemma initialize_modules_pending i : preserves pending (initialize_modules i).
Proof. unfold initialize_modules. frame. Qed.

Lemma degradeStreamQuality_sessions sid : preserves sessions (degradeStreamQuality sid).
Proof. unfold degradeStreamQuality. frame. Qed.

Lemma issueWarning_sessions sid ts : preserves sessions (issueWarning sid ts).
Proof. unfold issueWarning. frame. Qed.

(** ** terminateStream and cleanup on the store *)

Lemma terminateStream_sessions sid reason st :
  sessions (snd (terminateStream sid reason st)) =
  match sessions st !! sid with
  | Some s => <[sid := terminate s reason (fst (clock (world st)))]> (sessions st)
  | None => sessions st
  end.
Proof.
  unfold terminateStream, bind, get, gets; simpl.
  destruct (sessions st !! sid); reflexivity.
Qed.

Lemma terminateStream_result sid reason st :
  exists t,
    fst (terminateStream sid reason st) =
    {| terminate_action := "terminate"; reason := reason;
       terminate_sessionId := sid; terminate_timestamp := t |}.
Proof. unfold terminateStream, bind; simpl. eexists; reflexivity. Qed.

Lemma terminateStream_pending sid reason :
  preserves pending (terminateStream sid reason).
Proof.
  intros st. unfold terminateStream, bind, get, gets; simpl.
  destruct (sessions st !! sid); reflexivity.
Qed.

Lemma terminateStream_config sid reason :
  preserves config (terminateStream sid reason).
Proof.
  intros st. unfold terminateStream, bind, get, gets; simpl.
  destruct (sessions st !! sid); reflexivity.
Qed.

Lemma cleanup_sessions sid st :
  sessions (snd (cleanup sid st)) =
  match sessions st !! sid with
  | Some s => <[sid := close s (fst (clock (world st)))]> (sessions st)
  | None => sessions st
  end.
Proof.
  unfold cleanup, bind, ret, get, gets; cbn [fst snd].
  destruct (sessions st !! sid); [| reflexivity]. cbn [fst snd].
  by rewrite !cleanup_module_sessions.
Qed.

Lemma cleanup_result sid st :
  fst (cleanup sid st) = bool_decide (is_Some (sessions st !! sid)).
Proof.
  unfold cleanup, bind, get, gets; simpl.
  destruct (sessions st !! sid); reflexivity.
Qed.

(** A session that is ended stays in the store, ended, across one more call. *)
Lemma run_call_terminal c sid s st :
  sessions st !! sid = Some s -> is_terminal (status s) = true ->
  exists s', sessions (snd (run_call c st)) !! sid = Some s'
             /\ is_terminal (status s') = true.
Proof.
  intros Hs Ht.
  destruct c as [sid' reason | sid']; unfold run_call, bind, ret; cbn [fst snd].
  - rewrite terminateStream_sessions.
    destruct (decide (sid' = sid)) as [-> | Hne].
    + rewrite Hs, lookup_insert_eq. eauto.
    + destruct (sessions st !! sid'); [rewrite lookup_insert_ne by done |]; eauto.
  - rewrite cleanup_sessions.
    destruct (decide (sid' = sid)) as [-> | Hne].
    + rewrite Hs, lookup_insert_eq. eauto.
    + destruct (sessions st !! sid'); [rewrite lookup_insert_ne by done |]; eauto.
Qed.

Lemma run_calls_terminal cs : forall sid s st,
  sessions st !! sid = Some s -> is_terminal (status s) = true ->
  exists s', sessions (snd (run_calls cs st)) !! sid = Some s'
             /\ is_terminal (status s') = true.
Proof.
  induction cs as [| c cs IH]; intros sid s st Hs Ht; simpl.
  - eauto.
  - unfold bind.
    destruct (run_call_terminal c sid s st Hs Ht) as (s1 & Hs1 & Ht1).
    exact (IH sid s1 _ Hs1 Ht1).
Qed.

(** C1 (as amended): once a session is [terminated] or [closed] it never
    becomes [active] again under any sequence of [terminateStream] and
    [cleanup] calls; [terminateStream] on it always leaves it [terminated]
    and [cleanup] always leaves it [closed], whichever of the two it was. *)
Theorem terminal_status_stays_terminal sid s cs st :
  sessions st !! sid = Some s ->
  is_terminal (status s) = true ->
  (exists s', sessions (snd (run_calls cs st)) !! sid = Some s'
              /\ is_terminal (status s') = true)
  /\ (forall reason,
        status <$> sessions (snd (terminateStream sid reason st)) !! sid
        = Some terminated)
  /\ status <$> sessions (snd (cleanup sid st)) !! sid = Some closed.
Proof.
  intros Hs Ht. split; [| split].
  - eapply run_calls_terminal; eauto.
  - intros reason. by rewrite terminateStream_sessions, Hs, lookup_insert_eq.
  - by rewrite cleanup_sessions, Hs, lookup_insert_eq.
Qed.

(** C10: [terminateStream] on an id that is not in the store leaves the
    store as it is and creates no record, and still returns the full
    [{action: 'terminate', reason, sessionId, timestamp}] object, the same
    shape any call returns whether or not the session exists. *)
Theorem terminateStream_unknown_session sid reason st :
  sessions st !! sid = None ->
  sessions (snd (terminateStream sid reason st)) = sessions st
  /\ sessions (snd (terminateStream sid reason st)) !! sid = None
  /\ fst (terminateStream sid reason st) =
     {| terminate_action := "terminate"; reason := reason;
        terminate_sessionId := sid;
        terminate_timestamp := fst (clock (world st)) |}
  /\ (forall st', exists t,
        fst (terminateStream sid reason st') =
        {| terminate_action := "terminate"; reason := reason;
           terminate_sessionId := sid; terminate_timestamp := t |}).
Proof.
  intros Hs. rewrite terminateStream_sessions, Hs.
  repeat split; try done.
  - unfold terminateStream, bind, get, gets; simpl. by rewrite Hs.
  - intros st'. apply terminateStream_result.
Qed.

(** C7: [checkSecurityStatus] on an id that is not in the store resolves to
    [{error: 'Invalid session', secure: false, timestamp}], a value with no
    [threats], and changes neither the store nor anything else of the engine
    but the clock it read. *)
Theorem checkSecurityStatus_unknown_session sid st :
  sessions st !! sid = None ->
  fst (checkSecurityStatus sid st) =
    Resolved (Invalid {| error := "Invalid session";
                         invalid_secure := false;
                         invalid_timestamp := fst (clock (world st)) |})
  /\ snd (checkSecurityStatus sid st) = set_world (snd (clock (world st))) st
  /\ sessions (snd (checkSecurityStatus sid st)) = sessions st.
Proof.
  intros Hs. unfold checkSecurityStatus, bind, has, gets; simpl.
  rewrite Hs. rewrite bool_decide_eq_false_2 by (intros [? ?]; done).
  simpl. done.
Qed.

(** C8: [cleanup] on an unknown id returns [false] and changes nothing; on a
    known session it sets [status] to [closed], stamps [closedAt], calls
    [cleanup] on exactly the modules that have one, in order, and returns
    [true]; a session that is already closed gets the same treatment, its
    [closedAt] stamped anew. *)
Theorem cleanup_spec sid st :
  (sessions st !! sid = None -> cleanup sid st = (false, st))
  /\ (forall s, sessions st !! sid = Some s ->
        let t := fst (clock (world st)) in
        let st' := snd (cleanup sid st) in
        fst (cleanup sid st) = true
        /\ sessions st' = <[sid := close s t]> (sessions st)
        /\ status <$> sessions st' !! sid = Some closed
        /\ closedAt <$> sessions st' !! sid = Some (Some t)
        /\ trace st' = trace st ++ cleanup_events sid
        /\ world st' =
           cleanup_effect (contentFingerprinting modules) sid
             (cleanup_effect (anomalyDetection modules) sid
                (cleanup_effect (networkAnalysis modules) sid
                   (cleanup_effect (vpnDetection modules) sid
                      (snd (clock (world st)))))))
  /\ (forall s, sessions st !! sid = Some s -> status s = closed ->
        fst (cleanup sid st) = true
        /\ sessions (snd (cleanup sid st)) !! sid
           = Some (close s (fst (clock (world st))))).
Proof.
  split; [| split].
  - intros Hs. unfold cleanup, bind, get, gets; simpl. by rewrite Hs.
  - intros s Hs t st'. subst t st'.
    rewrite cleanup_result, cleanup_sessions, Hs, lookup_insert_eq.
    repeat split; try done.
    + unfold cleanup, bind, ret, get, gets; cbn [fst snd]. rewrite Hs.
      cbn [fst snd]. rewrite !cleanup_module_trace.
      unfold cleanup_events. by rewrite <- !app_assoc.
    + unfold cleanup, bind, ret, get, gets; cbn [fst snd]. rewrite Hs.
      cbn [fst snd]. by rewrite !cleanup_module_world.
  - intros s Hs _.
    by rewrite cleanup_result, cleanup_sessions, Hs, lookup_insert_eq.
Qed.

(** ** The breach response *)

Lemma logSecurityEvent_trace sid ty d st :
  exists evs,
    trace (snd (logSecurityEvent sid ty d st)) = trace st ++ evs
    /\ Forall (fun e => strategy_action e = false) evs.
Proof.
  unfold logSecurityEvent, bind, ret, gets, now, extern; cbn [fst snd].
  destruct (should_log _ _); cbn.
  - eexists; split; [reflexivity |]. by constructor.
  - exists []. by rewrite app_nil_r.
Qed.

(** The [switch] under 'degraded' and 'warning': the store is not touched. *)
Lemma blockingStrategy_switch_soft sid ts st :
  blockingStrategy (config st) = "degraded"
  \/ blockingStrategy (config st) = "warning" ->
  sessions (snd (blockingStrategy_switch sid ts st)) = sessions st.
Proof.
  intros H. unfold blockingStrategy_switch, bind, ret, gets; cbn [fst snd].
  destruct H as [-> | ->]; cbn [String.eqb Ascii.eqb Bool.eqb fst snd].
  - apply degradeStreamQuality_sessions.
  - apply issueWarning_sessions.
Qed.

(** The [switch] under 'immediate' and under every other string. *)
Lemma blockingStrategy_switch_terminate sid ts st :
  blockingStrategy (config st) <> "degraded" ->
  blockingStrategy (config st) <> "warning" ->
  snd (blockingStrategy_switch sid ts st)
  = snd (terminateStream sid "Security violation detected" st).
Proof.
  intros Hd Hw. unfold blockingStrategy_switch, bind, ret, gets; cbn [fst snd].
  destruct (String.eqb_spec (blockingStrategy (config st)) "immediate");
    [reflexivity |].
  destruct (String.eqb_spec (blockingStrategy (config st)) "degraded"); [done |].
  destruct (String.eqb_spec (blockingStrategy (config st)) "warning"); [done |].
  reflexivity.
Qed.

(** Without a truthy endpoint the handler runs to its end at once: the log
    entry, then the [switch]. *)
Lemma handleSecurityBreach_direct sid ts st :
  truthy (notificationEndpoint (config st)) = false ->
  exists st1,
    sessions st1 = sessions st /\ config st1 = config st
    /\ pending st1 = pending st
    /\ handleSecurityBreach sid ts st
       = (Fulfilled (fst (blockingStrategy_switch sid ts st1)),
          snd (blockingStrategy_switch sid ts st1)).
Proof.
  intros Hep.
  exists (snd (logSecurityEvent sid "breach" ts
                 (snd (emit (BreachHandler sid ts) st)))).
  rewrite logSecurityEvent_sessions, logSecurityEvent_config,
    logSecurityEvent_pending.
  repeat split.
  unfold handleSecurityBreach, bind, ret, gets; cbn [fst snd].
  rewrite logSecurityEvent_config. cbn [emit snd set_trace config].
  destruct (notificationEndpoint (config st)) as [ep |] eqn:E; [| reflexivity].
  rewrite Hep. reflexivity.
Qed.

(** With a truthy endpoint the handler logs, starts the delivery and
    suspends: the store is as before, the rest of the body is queued, and no
    strategy action has run. *)
Lemma handleSecurityBreach_suspends sid ts st endpoint :
  notificationEndpoint (config st) = Some endpoint ->
  truthy (Some endpoint) = true ->
  let st1 := snd (handleSecurityBreach sid ts st) in
  fst (handleSecurityBreach sid ts st) = AwaitingNotification
  /\ sessions st1 = sessions st
  /\ config st1 = config st
  /\ pending st1 = pending st ++ [{| pending_sessionId := sid;
                                     pending_threats := ts |}]
  /\ exists evs,
       trace st1 = trace st ++ BreachHandler sid ts :: evs
       /\ Forall (fun e => strategy_action e = false) evs.
Proof.
  intros Hep Ht st1. subst st1.
  unfold handleSecurityBreach, bind, ret, gets; cbn [fst snd].
  rewrite logSecurityEvent_config. cbn [emit snd set_trace config].
  rewrite Hep, Ht.
  unfold modify, call_module, bind, now, extern, emit; cbn [fst snd].
  cbn [sessions config pending trace set_pending set_world set_trace].
  rewrite logSecurityEvent_sessions, logSecurityEvent_config,
    logSecurityEvent_pending.
  repeat split.
  destruct (logSecurityEvent_trace sid "breach" ts
              (set_trace (trace st ++ [BreachHandler sid ts]) st))
    as (evs & -> & Hevs).
  cbn [trace set_trace]. eexists (evs ++ [_]). split.
  - rewrite <- !app_assoc. reflexivity.
  - apply Forall_app. split; [done |]. by repeat constructor.
Qed.

(** ** checkSecurityStatus on a known session *)

Lemma has_known sid st s :
  sessions st !! sid = Some s -> fst (has sid st) = true.
Proof.
  intros Hs. unfold has, gets; cbn [fst]. rewrite Hs.
  by apply bool_decide_eq_true_2.
Qed.

(** All four checks resolved: the verdict is built from the collected
    threats, and the handler runs exactly when it is not secure. *)
Lemma checkSecurityStatus_resolved sid st s v n a f :
  sessions st !! sid = Some s ->
  fst (checkStatus_modules sid st)
  = (Resolved v, Resolved n, Resolved a, Resolved f) ->
  let st1 := snd (checkStatus_modules sid st) in
  let ts := collect_threats v n a f in
  let st2 := set_world (snd (clock (world st1))) st1 in
  checkSecurityStatus sid st
  = (Resolved (Verdict {| secure := length ts =? 0;
                          timestamp := fst (clock (world st1));
                          sessionId := sid;
                          threats := ts |}),
     if length ts =? 0 then st2 else snd (handleSecurityBreach sid ts st2)).
Proof.
  intros Hs Hps st1 ts st2.
  unfold checkSecurityStatus, bind. rewrite (has_known sid st s Hs).
  cbn [negb]. unfold has, gets. cbn [fst snd]. rewrite Hps.
  cbn [Promise_all4]. unfold bind, ret, now, extern; cbn [fst snd secure].
  fold st1. fold ts. fold st2.
  destruct (length ts =? 0); reflexivity.
Qed.

(** One of the four checks rejected: the whole check rejects, after the
    four calls and nothing else. *)
Lemma checkSecurityStatus_rejected sid st s p1 p2 p3 p4 :
  sessions st !! sid = Some s ->
  fst (checkStatus_modules sid st) = (p1, p2, p3, p4) ->
  is_resolved p1 && is_resolved p2 && is_resolved p3 && is_resolved p4 = false ->
  exists e,
    checkSecurityStatus sid st = (Rejected e, snd (checkStatus_modules sid st)).
Proof.
  intros Hs Hps Hrej.
  unfold checkSecurityStatus, bind. rewrite (has_known sid st s Hs).
  cbn [negb]. unfold has, gets. cbn [fst snd]. rewrite Hps.
  destruct p1, p2, p3, p4; try discriminate Hrej;
    cbn [Promise_all4]; unfold ret; eexists; reflexivity.
Qed.



(** C3: every verdict [checkSecurityStatus] resolves to for a known session
    has [secure] true exactly when [threats] is empty. *)
Theorem secure_iff_no_threats sid st s r :
  sessions st !! sid = Some s ->
  fst (checkSecurityStatus sid st) = Resolved r ->
  exists status,
    r = Verdict status /\ (secure status = true <-> threats status = []).
Proof.
  intros Hs Hr.
  destruct (fst (checkStatus_modules sid st)) as [[[p1 p2] p3] p4] eqn:Hps.
  destruct (is_resolved p1 && is_resolved p2 && is_resolved p3 && is_resolved p4)
    eqn:Hall.
  - destruct p1 as [v |], p2 as [n |], p3 as [a |], p4 as [f |];
      try discriminate Hall.
    rewrite (checkSecurityStatus_resolved sid st s v n a f Hs Hps) in Hr.
    cbn [fst] in Hr. injection Hr as <-.
    eexists; split; [reflexivity |]. cbn [secure threats].
    rewrite Nat.eqb_eq. apply length_zero_iff_nil.
  - destruct (checkSecurityStatus_rejected sid st s p1 p2 p3 p4 Hs Hps Hall)
      as (e & He).
    rewrite He in Hr. discriminate Hr.
Qed.

Lemma terminateStream_trace sid reason st :
  trace (snd (terminateStream sid reason st))
  = trace st ++ [TerminateStream sid reason].
Proof.
  unfold terminateStream, bind, ret, get, gets, emit; cbn [fst snd].
  cbn [sessions set_trace].
  destruct (sessions st !! sid); reflexivity.
Qed.

(** The one event of the [switch]: which method it called. *)
Definition strategy_event (strategy sid : string) : Event :=
  if String.eqb strategy "degraded" then DegradeStreamQuality sid
  else if String.eqb strategy "warning" then IssueWarning sid
  else TerminateStream sid "Security violation detected".

Lemma blockingStrategy_switch_trace sid ts st :
  trace (snd (blockingStrategy_switch sid ts st))
  = trace st ++ [strategy_event (blockingStrategy (config st)) sid].
Proof.
  unfold blockingStrategy_switch, strategy_event, bind, ret, gets;
    cbn [fst snd].
  destruct (String.eqb_spec (blockingStrategy (config st)) "immediate")
    as [-> | _]; [apply terminateStream_trace |].
  destruct (String.eqb (blockingStrategy (config st)) "degraded");
    [reflexivity |].
  destruct (String.eqb (blockingStrategy (config st)) "warning");
    [reflexivity |].
  apply terminateStream_trace.
Qed.

(** C5 (as amended): under 'degraded' and 'warning' no part of a
    breach-handling run changes the store: not the call of the handler, with
    or without an endpoint, and not what is left of it once the delivery has
    settled, resolved or rejected.  Under 'immediate' and every other string,
    a run that gets to the [switch] (no truthy endpoint, or the awaited
    delivery resolved) sets the session, when the store has it, to
    [terminated] with [terminatedReason] 'Security violation detected' and a
    [terminatedAt] stamp, the rest of the record and all other sessions
    staying as they were. *)
Theorem blocking_strategy_effect sid ts st :
  ((blockingStrategy (config st) = "degraded"
    \/ blockingStrategy (config st) = "warning") ->
   sessions (snd (handleSecurityBreach sid ts st)) = sessions st
   /\ (forall delivery,
         sessions (snd (handleSecurityBreach_resume
                          {| pending_sessionId := sid; pending_threats := ts |}
                          delivery st)) = sessions st))
  /\ (blockingStrategy (config st) <> "degraded" ->
      blockingStrategy (config st) <> "warning" ->
      forall st',
      (truthy (notificationEndpoint (config st)) = false
       /\ st' = snd (handleSecurityBreach sid ts st))
      \/ st' = snd (handleSecurityBreach_resume
                      {| pending_sessionId := sid; pending_threats := ts |}
                      (Resolved tt) st) ->
      forall s, sessions st !! sid = Some s ->
      exists t,
        sessions st' =
          <[sid := {| info := info s; startTime := startTime s;
                      status := terminated;
                      terminatedReason := Some "Security violation detected";
                      terminatedAt := Some t;
                      closedAt := closedAt s |}]> (sessions st)
        /\ status <$> sessions st' !! sid = Some terminated).
Proof.
  split.
  - intros Hsoft. split.
    + destruct (truthy (notificationEndpoint (config st))) eqn:Ht.
      * destruct (notificationEndpoint (config st)) as [ep |] eqn:Hep;
          [| discriminate Ht].
        by destruct (handleSecurityBreach_suspends sid ts st ep Hep Ht)
          as (_ & -> & _).
      * destruct (handleSecurityBreach_direct sid ts st Ht)
          as (st1 & Hses & Hcfg & _ & ->). cbn [snd].
        rewrite <- Hcfg in Hsoft.
        by rewrite blockingStrategy_switch_soft.
    + intros [u | e]; unfold handleSecurityBreach_resume, bind, ret;
        cbn [fst snd]; [| reflexivity].
      by apply blockingStrategy_switch_soft.
  - intros Hd Hw st' Hrun s Hs.
    assert (Hsw : exists st1,
               sessions st1 = sessions st /\ config st1 = config st
               /\ st' = snd (blockingStrategy_switch sid ts st1)).
    { destruct Hrun as [[Hep ->] | ->].
      - destruct (handleSecurityBreach_direct sid ts st Hep)
          as (st1 & H1 & H2 & _ & ->). exists st1. done.
      - exists st. unfold handleSecurityBreach_resume, bind, ret; cbn. done. }
    destruct Hsw as (st1 & Hses & Hcfg & ->).
    rewrite <- Hcfg in Hd, Hw.
    rewrite (blockingStrategy_switch_terminate sid ts st1 Hd Hw).
    rewrite terminateStream_sessions, Hses, Hs.
    eexists. split; [reflexivity |]. by rewrite lookup_insert_eq.
Qed.

(** ** initialize *)


(** ** A rejected notification *)

(** The configuration with the [notificationEndpoint] property left out. *)
Definition without_endpoint (c : Config) : Config :=
  {| apiKey := apiKey c; serviceName := serviceName c;
     sensitivityLevel := sensitivityLevel c;
     blockingStrategy := blockingStrategy c;
     notificationEndpoint := None;
     loggingLevel := loggingLevel c |}.

Definition set_config (c : Config) (st : Engine) : Engine :=
  {| config := c; sessions := sessions st; isInitialized := isInitialized st;
     world := world st; trace := trace st; pending := pending st |}.

Lemma checkStatus_modules_world sid st st' :
  world st = world st' ->
  fst (checkStatus_modules sid st) = fst (checkStatus_modules sid st')
  /\ world (snd (checkStatus_modules sid st))
     = world (snd (checkStatus_modules sid st')).
Proof.
  intros Hw.
  unfold checkStatus_modules, call_module, bind, ret, emit, extern;
    cbn [fst snd world set_world set_trace].
  by rewrite Hw.
Qed.

(** What [checkSecurityStatus] returns depends on the store and on the
    world only; the configuration plays no part in it. *)
Lemma checkSecurityStatus_result_config sid st c :
  fst (checkSecurityStatus sid (set_config c st))
  = fst (checkSecurityStatus sid st).
Proof.
  destruct (checkStatus_modules_world sid (set_config c st) st eq_refl)
    as (Hfst & Hworld).
  unfold checkSecurityStatus, bind.
  unfold has, gets; cbn [fst snd sessions set_config].
  destruct (negb (bool_decide (is_Some (sessions st !! sid)))); [reflexivity |].
  rewrite Hfst.
  destruct (fst (checkStatus_modules sid st)) as [[[p1 p2] p3] p4].
  destruct (Promise_all4 p1 p2 p3 p4) as [[[[v n] a] f] | e]; [| reflexivity].
  unfold bind, ret, now, extern; cbn [fst snd]. by rewrite Hworld.
Qed.

Lemma settle_notification_rejected n e st p :
  pending st !! n = Some p ->
  settle_notification n (Rejected e) st
  = (Some (Rejected e), set_pending (delete n (pending st)) st).
Proof.
  intros Hp. unfold settle_notification, bind, gets; cbn [fst snd].
  rewrite Hp. reflexivity.
Qed.

(** C9: with a truthy [notificationEndpoint], a breach-handling run whose
    delivery rejects never gets to the [switch]: the handler suspends with
    the store untouched, the rejection ends it with its own promise rejected,
    no strategy action is ever called and the session keeps the status it
    had, also under 'immediate'; the verdict [checkSecurityStatus] returned
    is the one it returns with no endpoint configured at all. *)
Theorem rejected_notification_skips_strategy sid st s status endpoint e :
  sessions st !! sid = Some s ->
  notificationEndpoint (config st) = Some endpoint ->
  truthy (Some endpoint) = true ->
  fst (checkSecurityStatus sid st) = Resolved (Verdict status) ->
  secure status = false ->
  let st1 := snd (checkSecurityStatus sid st) in
  let settled := settle_notification (length (pending st)) (Rejected e) st1 in
  sessions st1 = sessions st
  /\ pending st1 = pending st ++ [{| pending_sessionId := sid;
                                     pending_threats := threats status |}]
  /\ fst settled = Some (Rejected e)
  /\ sessions (snd settled) = sessions st
  /\ sessions (snd settled) !! sid = Some s
  /\ pending (snd settled) = pending st
  /\ (exists evs,
        trace (snd settled) = trace st ++ evs
        /\ Forall (fun ev => strategy_action ev = false) evs)
  /\ fst (checkSecurityStatus sid (set_config (without_endpoint (config st)) st))
     = Resolved (Verdict status).
Proof.
  intros Hs Hep Ht Hr Hsec st1 settled. subst st1 settled.
  rewrite checkSecurityStatus_result_config.
  destruct (fst (checkStatus_modules sid st)) as [[[p1 p2] p3] p4] eqn:Hps.
  destruct (is_resolved p1 && is_resolved p2 && is_resolved p3 && is_resolved p4)
    eqn:Hall.
  2: { destruct (checkSecurityStatus_rejected sid st s p1 p2 p3 p4 Hs Hps Hall)
         as (e' & He').
       rewrite He' in Hr. discriminate Hr. }
  destruct p1 as [v |], p2 as [n |], p3 as [a |], p4 as [f |];
    try discriminate Hall.
  rewrite (checkSecurityStatus_resolved sid st s v n a f Hs Hps) in Hr |- *.
  cbn [fst] in Hr. injection Hr as <-. cbn [secure threats snd fst] in Hsec |- *.
  rewrite Hsec.
  set (st2 := set_world _ (snd (checkStatus_modules sid st))).
  assert (Hses2 : sessions st2 = sessions st)
    by apply checkStatus_modules_sessions.
  assert (Hpen2 : pending st2 = pending st)
    by apply checkStatus_modules_pending.
  assert (Hcfg2 : config st2 = config st)
    by apply checkStatus_modules_config.
  assert (Htr2 : trace st2 = trace st ++ checkStatus_events sid)
    by apply checkStatus_modules_trace.
  rewrite <- Hcfg2 in Hep.
  destruct (handleSecurityBreach_suspends sid (collect_threats v n a f) st2
              endpoint Hep Ht)
    as (_ & Hses & _ & Hpen & evs & Htr & Hevs).
  rewrite (settle_notification_rejected (length (pending st)) e _
             {| pending_sessionId := sid;
                pending_threats := collect_threats v n a f |}).
  2: { rewrite Hpen, Hpen2. apply list_lookup_middle. reflexivity. }
  cbn [fst snd sessions pending trace set_pending].
  rewrite Hses, Hses2, Hpen, Hpen2, Htr, Htr2.
  repeat split; try done.
  - rewrite delete_middle. by rewrite app_nil_r.
  - eexists. split; [by rewrite <- app_assoc |].
    apply Forall_app. split; [by repeat constructor |].
    constructor; [done | exact Hevs].
Qed.

(** ** Further properties of the engine *)

(** *** logSecurityEvent *)

Lemma logSecurityEvent_trace_exact sid ty d st :
  trace (snd (logSecurityEvent sid ty d st)) =
  trace st ++
  (if should_log (loggingLevel (config st)) ty
   then [ConsoleLog {| log_timestamp := fst (clock (world st));
                       log_sessionId := sid; eventType := ty; data := d |}]
   else []).
Proof.
  unfold logSecurityEvent, bind, ret, gets, now, extern; cbn [fst snd].
  cbn [config set_world].
  destruct (should_log _ _); cbn; [reflexivity | by rewrite app_nil_r].
Qed.

Lemma should_log_breach level :
  should_log level "breach" = true
  <-> level = "debug" \/ level = "info" \/ level = "warning".
Proof.
  unfold should_log.
  destruct (String.eqb_spec level "debug") as [-> | Hd];
    [cbn; split; auto |].
  destruct (String.eqb_spec level "info") as [-> | Hi];
    [cbn; split; auto |].
  destruct (String.eqb_spec level "warning") as [-> | Hw];
    [cbn; split; auto |].
  cbn. split; [done | intros [? | [? | ?]]; done].
Qed.

Lemma should_log_routine level :
  should_log level "routine" = true <-> level = "debug".
Proof.
  unfold should_log.
  destruct (String.eqb_spec level "debug") as [-> | Hd];
    [cbn; split; auto |].
  destruct (String.eqb level "info"), (String.eqb level "warning"); cbn;
    split; done.
Qed.

(** X1: [logSecurityEvent] always hands back the record it built, stamped with
    the clock; it writes the record to the console exactly when the level
    lets the event type through, and touches nothing else of the engine.  A
    'breach' passes under 'debug', 'info' and 'warning' and under no other
    level string; a 'routine' event passes under 'debug' only. *)
Theorem logSecurityEvent_gate sid ty d st :
  let r := {| log_timestamp := fst (clock (world st));
              log_sessionId := sid; eventType := ty; data := d |} in
  let st' := snd (logSecurityEvent sid ty d st) in
  fst (logSecurityEvent sid ty d st) = r
  /\ trace st' =
     trace st ++ (if should_log (loggingLevel (config st)) ty then [ConsoleLog r]
                  else [])
  /\ sessions st' = sessions st
  /\ pending st' = pending st
  /\ (should_log (loggingLevel (config st)) "breach" = true
      <-> loggingLevel (config st) = "debug"
          \/ loggingLevel (config st) = "info"
          \/ loggingLevel (config st) = "warning")
  /\ (should_log (loggingLevel (config st)) "routine" = true
      <-> loggingLevel (config st) = "debug").
Proof.
  cbv zeta. split; [| split; [| split; [| split; [| split]]]].
  - unfold logSecurityEvent, bind, ret, gets, now, extern; cbn [fst snd].
    reflexivity.
  - apply logSecurityEvent_trace_exact.
  - apply logSecurityEvent_sessions.
  - apply logSecurityEvent_pending.
  - apply should_log_breach.
  - apply should_log_routine.
Qed.

(** *** The events of one breach-handling run *)

Definition breach_log_events (sid : string) (ts : list Threat) (st : Engine)
  : list Event :=
  if should_log (loggingLevel (config st)) "breach"
  then [ConsoleLog {| log_timestamp := fst (clock (world st));
                      log_sessionId := sid; eventType := "breach";
                      data := ts |}]
  else [].

Lemma logSecurityEvent_world sid ty d st :
  world (snd (logSecurityEvent sid ty d st)) = snd (clock (world st)).
Proof.
  unfold logSecurityEvent, bind, ret, gets, now, extern; cbn [fst snd].
  destruct (should_log _ _); reflexivity.
Qed.

(** The engine once the handler has been entered and the breach logged
    (lines 102-103). *)
Definition after_breach_log (sid : string) (ts : list Threat) (st : Engine)
  : Engine :=
  snd (logSecurityEvent sid "breach" ts (snd (emit (BreachHandler sid ts) st))).

Lemma after_breach_log_frame sid ts st :
  sessions (after_breach_log sid ts st) = sessions st
  /\ config (after_breach_log sid ts st) = config st
  /\ pending (after_breach_log sid ts st) = pending st
  /\ world (after_breach_log sid ts st) = snd (clock (world st))
  /\ trace (after_breach_log sid ts st)
     = trace st ++ BreachHandler sid ts :: breach_log_events sid ts st.
Proof.
  unfold after_breach_log.
  rewrite logSecurityEvent_sessions, logSecurityEvent_config,
    logSecurityEvent_pending, logSecurityEvent_world,
    logSecurityEvent_trace_exact.
  cbn [emit snd sessions config pending world trace set_trace].
  repeat split. unfold breach_log_events. by rewrite <- app_assoc.
Qed.

(** What the strategy method called by the [switch] returns, given the
    timestamp it reads. *)
Definition strategy_result (strategy sid : string) (ts : list Threat)
    (t : Timestamp) : ActionResult :=
  if String.eqb strategy "degraded" then
    Degrade {| degrade_action := "degrade"; degrade_sessionId := sid;
               degrade_timestamp := t |}
  else if String.eqb strategy "warning" then
    Warning {| warning_action := "warning"; warning_sessionId := sid;
               warning_threats := ts; warning_timestamp := t |}
  else
    Terminate {| terminate_action := "terminate";
                 reason := "Security violation detected";
                 terminate_sessionId := sid; terminate_timestamp := t |}.

(** The clock reading that ends up in the result: the first one, except
    that [terminateStream] on a stored session reads the clock once more
    for [terminatedAt] before it builds its result. *)
Definition strategy_timestamp (sid : string) (st : Engine) : Timestamp :=
  if String.eqb (blockingStrategy (config st)) "degraded"
     || String.eqb (blockingStrategy (config st)) "warning"
  then fst (clock (world st))
  else match sessions st !! sid with
       | Some _ => fst (clock (snd (clock (world st))))
       | None => fst (clock (world st))
       end.

Lemma terminateStream_value sid reason st :
  fst (terminateStream sid reason st) =
  {| terminate_action := "terminate"; reason := reason;
     terminate_sessionId := sid;
     terminate_timestamp :=
       match sessions st !! sid with
       | Some _ => fst (clock (snd (clock (world st))))
       | None => fst (clock (world st))
       end |}.
Proof.
  unfold terminateStream, bind, ret, get, gets, emit, set, modify, now, extern;
    cbn [fst snd]. cbn [sessions world set_trace].
  destruct (sessions st !! sid); reflexivity.
Qed.

Lemma blockingStrategy_switch_value sid ts st :
  fst (blockingStrategy_switch sid ts st)
  = strategy_result (blockingStrategy (config st)) sid ts
      (strategy_timestamp sid st).
Proof.
  unfold blockingStrategy_switch, strategy_result, strategy_timestamp,
    bind, ret, gets; cbn [fst snd].
  destruct (String.eqb_spec (blockingStrategy (config st)) "immediate")
    as [-> | _].
  { cbn [String.eqb Ascii.eqb Bool.eqb orb]. by rewrite terminateStream_value. }
  destruct (String.eqb (blockingStrategy (config st)) "degraded");
    [reflexivity |].
  destruct (String.eqb (blockingStrategy (config st)) "warning");
    [reflexivity |].
  cbn [orb]. by rewrite terminateStream_value.
Qed.

Lemma blockingStrategy_switch_pending sid ts :
  preserves pending (blockingStrategy_switch sid ts).
Proof.
  intros st. unfold blockingStrategy_switch, bind, ret, gets; cbn [fst snd].
  repeat match goal with
         | |- context [if ?b then _ else _] => destruct b
         end; cbn [fst snd];
    first [ apply terminateStream_pending
          | unfold degradeStreamQuality, issueWarning, bind, ret, now,
              extern, emit; reflexivity ].
Qed.

(** The store after the [switch], under a strategy that terminates. *)
Lemma blockingStrategy_switch_terminated sid ts st :
  blockingStrategy (config st) <> "degraded" ->
  blockingStrategy (config st) <> "warning" ->
  sessions (snd (blockingStrategy_switch sid ts st)) =
  match sessions st !! sid with
  | Some s =>
      <[sid := terminate s "Security violation detected"
                 (fst (clock (world st)))]> (sessions st)
  | None => sessions st
  end.
Proof.
  intros Hd Hw.
  rewrite (blockingStrategy_switch_terminate sid ts st Hd Hw).
  apply terminateStream_sessions.
Qed.

(** The whole call when there is no truthy endpoint. *)
Lemma handleSecurityBreach_direct_exact sid ts st :
  truthy (notificationEndpoint (config st)) = false ->
  handleSecurityBreach sid ts st
  = (Fulfilled (fst (blockingStrategy_switch sid ts (after_breach_log sid ts st))),
     snd (blockingStrategy_switch sid ts (after_breach_log sid ts st))).
Proof.
  intros Hep. unfold handleSecurityBreach, after_breach_log, bind, ret, gets;
    cbn [fst snd].
  rewrite logSecurityEvent_config. cbn [emit snd set_trace config].
  destruct (notificationEndpoint (config st)) as [ep |]; [rewrite Hep |];
    reflexivity.
Qed.

(** The whole call when there is a truthy endpoint. *)
Lemma handleSecurityBreach_suspended_exact sid ts st endpoint :
  notificationEndpoint (config st) = Some endpoint ->
  truthy (Some endpoint) = true ->
  let payload :=
    {| notify_sessionId := sid;
       notify_timestamp := fst (clock (snd (clock (world st))));
       notify_threats := ts;
       notify_action := blockingStrategy (config st) |} in
  let st' := snd (handleSecurityBreach sid ts st) in
  fst (handleSecurityBreach sid ts st) = AwaitingNotification
  /\ sessions st' = sessions st
  /\ pending st' = pending st ++ [{| pending_sessionId := sid;
                                     pending_threats := ts |}]
  /\ trace st' =
     trace st ++ BreachHandler sid ts :: breach_log_events sid ts st
     ++ [Notify endpoint payload].
Proof.
  intros Hep Ht payload st'. subst payload st'.
  unfold handleSecurityBreach, bind, ret, gets; cbn [fst snd].
  rewrite logSecurityEvent_config. cbn [emit snd set_trace config].
  rewrite Hep, Ht.
  unfold modify, call_module, bind, now, extern, emit; cbn [fst snd].
  cbn [sessions pending trace world set_pending set_world set_trace].
  rewrite logSecurityEvent_sessions, logSecurityEvent_pending,
    logSecurityEvent_trace_exact, logSecurityEvent_world.
  cbn [sessions pending trace world config set_trace].
  repeat split.
  unfold breach_log_events. by rewrite <- !app_assoc.
Qed.

(** X2: without a truthy endpoint ([undefined], or the empty string) the
    handler runs to its end in the call itself.  Its promise is fulfilled
    with what the strategy method returned: the 'degrade' object under
    'degraded', the 'warning' object with the threats under 'warning', the
    'terminate' object with reason 'Security violation detected' under every
    other strategy, for this session and with the timestamp the method read.
    Nothing is queued, no notification is started, the calls made are the
    log entry (if the level lets it through) followed by that one strategy
    method, and the store is as the method leaves it: untouched under
    'degraded' and 'warning', the session set to [terminated] otherwise. *)
Theorem handleSecurityBreach_without_endpoint sid ts st :
  truthy (notificationEndpoint (config st)) = false ->
  let st1 := after_breach_log sid ts st in
  let st' := snd (handleSecurityBreach sid ts st) in
  fst (handleSecurityBreach sid ts st)
  = Fulfilled (strategy_result (blockingStrategy (config st)) sid ts
                 (strategy_timestamp sid st1))
  /\ fst (handleSecurityBreach sid ts st)
     = Fulfilled (fst (blockingStrategy_switch sid ts st1))
  /\ st' = snd (blockingStrategy_switch sid ts st1)
  /\ world st1 = snd (clock (world st))
  /\ pending st' = pending st
  /\ trace st' =
     trace st ++ BreachHandler sid ts :: breach_log_events sid ts st
     ++ [strategy_event (blockingStrategy (config st)) sid]
  /\ ((blockingStrategy (config st) = "degraded"
       \/ blockingStrategy (config st) = "warning") ->
      sessions st' = sessions st)
  /\ (blockingStrategy (config st) <> "degraded" ->
      blockingStrategy (config st) <> "warning" ->
      sessions st' =
      match sessions st !! sid with
      | Some s =>
          <[sid := terminate s "Security violation detected"
                     (fst (clock (snd (clock (world st)))))]> (sessions st)
      | None => sessions st
      end).
Proof.
  intros Hep st1 st'. subst st1 st'.
  destruct (after_breach_log_frame sid ts st)
    as (Hses & Hcfg & Hpen & Hworld & Htr).
  rewrite (handleSecurityBreach_direct_exact sid ts st Hep). cbn [fst snd].
  split; [by rewrite blockingStrategy_switch_value, Hcfg |].
  split; [reflexivity |]. split; [reflexivity |]. split; [exact Hworld |].
  split; [by rewrite blockingStrategy_switch_pending |].
  split; [rewrite blockingStrategy_switch_trace, Htr, Hcfg;
          by rewrite <- app_assoc |].
  split.
  - intros Hsoft. rewrite <- Hcfg in Hsoft.
    by rewrite blockingStrategy_switch_soft.
  - intros Hd Hw. rewrite <- Hcfg in Hd, Hw.
    by rewrite (blockingStrategy_switch_terminated sid ts _ Hd Hw),
      Hses, Hworld.
Qed.

(** X3: with a truthy endpoint the handler makes, in this order, the log entry
    (if the level lets it through) and one notification to that endpoint,
    whose payload carries the session id, the threat list and the configured
    strategy as [action]; then it suspends: no strategy method has run. *)
Theorem handleSecurityBreach_notification sid ts st endpoint :
  notificationEndpoint (config st) = Some endpoint ->
  truthy (Some endpoint) = true ->
  let st' := snd (handleSecurityBreach sid ts st) in
  exists t,
    trace st' =
      trace st ++ BreachHandler sid ts :: breach_log_events sid ts st
      ++ [Notify endpoint {| notify_sessionId := sid; notify_timestamp := t;
                             notify_threats := ts;
                             notify_action := blockingStrategy (config st) |}]
    /\ world st' =
       notifySecurityEvent endpoint
         {| notify_sessionId := sid; notify_timestamp := t;
            notify_threats := ts;
            notify_action := blockingStrategy (config st) |}
         (snd (clock (snd (clock (world st))))).
Proof.
  intros Hep Ht st'. subst st'.
  unfold handleSecurityBreach, bind, ret, gets; cbn [fst snd].
  rewrite logSecurityEvent_config. cbn [emit snd set_trace config].
  rewrite Hep, Ht.
  unfold modify, call_module, bind, now, extern, emit; cbn [fst snd].
  cbn [trace world set_pending set_world set_trace].
  rewrite logSecurityEvent_trace_exact, logSecurityEvent_world.
  cbn [trace world config set_trace].
  eexists. split; [| reflexivity].
  unfold breach_log_events. rewrite <- !app_assoc. reflexivity.
Qed.

(** C4: on a known session whose checks resolved, [handleSecurityBreach] is
    called iff the verdict has [secure = false].  Under a secure verdict the
    engine is left as it was when the verdict was built: the only calls made
    are the four status checks, with no handler, log entry, notification or
    strategy action, and neither the store nor the queue of suspended
    handlers changes.  Under a verdict that is not secure the engine is left
    exactly as the handler leaves it: after the four checks come the handler,
    the log entry if the level lets it through, and then either the one
    strategy method (no truthy endpoint; under a terminating strategy the
    session is then [terminated]) or the notification, with the rest of the
    handler queued. *)
Theorem breach_handler_iff_not_secure sid st s verdict :
  sessions st !! sid = Some s ->
  fst (checkSecurityStatus sid st) = Resolved (Verdict verdict) ->
  let st1 := snd (checkStatus_modules sid st) in
  let st2 := set_world (snd (clock (world st1))) st1 in
  let st' := snd (checkSecurityStatus sid st) in
  exists evs,
    trace st' = trace st ++ evs
    /\ (BreachHandler sid (threats verdict) ∈ evs <-> secure verdict = false)
    /\ ((exists e, e ∈ evs /\ breach_activity e = true) <-> secure verdict = false)
    /\ (secure verdict = true ->
          evs = checkStatus_events sid
          /\ sessions st' = sessions st
          /\ pending st' = pending st
          /\ st' = st2)
    /\ (secure verdict = false ->
          st' = snd (handleSecurityBreach sid (threats verdict) st2)
          /\ exists last,
               evs = checkStatus_events sid
                     ++ BreachHandler sid (threats verdict)
                     :: breach_log_events sid (threats verdict) st2 ++ [last]
               /\ (truthy (notificationEndpoint (config st)) = false ->
                     last = strategy_event (blockingStrategy (config st)) sid
                     /\ pending st' = pending st
                     /\ st' = snd (blockingStrategy_switch sid (threats verdict)
                                     (after_breach_log sid (threats verdict) st2))
                     /\ (blockingStrategy (config st) <> "degraded" ->
                         blockingStrategy (config st) <> "warning" ->
                         status <$> sessions st' !! sid = Some terminated
                         /\ terminatedReason <$> sessions st' !! sid
                            = Some (Some "Security violation detected")))
               /\ (forall endpoint,
                     notificationEndpoint (config st) = Some endpoint ->
                     truthy (Some endpoint) = true ->
                     last = Notify endpoint
                              {| notify_sessionId := sid;
                                 notify_timestamp :=
                                   fst (clock (snd (clock (world st2))));
                                 notify_threats := threats verdict;
                                 notify_action := blockingStrategy (config st) |}
                     /\ sessions st' = sessions st
                     /\ pending st' =
                        pending st ++ [{| pending_sessionId := sid;
                                          pending_threats := threats verdict |}])).
Proof.
  intros Hs Hr st1 st2 st'. subst st'.
  destruct (fst (checkStatus_modules sid st)) as [[[p1 p2] p3] p4] eqn:Hps.
  destruct (is_resolved p1 && is_resolved p2 && is_resolved p3 && is_resolved p4)
    eqn:Hall.
  2: { destruct (checkSecurityStatus_rejected sid st s p1 p2 p3 p4 Hs Hps Hall)
         as (e & He).
       rewrite He in Hr. discriminate Hr. }
  destruct p1 as [v |], p2 as [n |], p3 as [a |], p4 as [f |];
    try discriminate Hall.
  rewrite (checkSecurityStatus_resolved sid st s v n a f Hs Hps) in Hr |- *.
  cbn [fst] in Hr. injection Hr as <-. cbn [snd secure threats].
  fold st1. fold st2.
  set (ts := collect_threats v n a f).
  assert (Hses2 : sessions st2 = sessions st)
    by apply checkStatus_modules_sessions.
  assert (Hpen2 : pending st2 = pending st)
    by apply checkStatus_modules_pending.
  assert (Hcfg2 : config st2 = config st)
    by apply checkStatus_modules_config.
  assert (Htr2 : trace st2 = trace st ++ checkStatus_events sid)
    by apply checkStatus_modules_trace.
  destruct (length ts =? 0) eqn:Hsec.
  - exists (checkStatus_events sid).
    split; [exact Htr2 |]. split; [| split; [| split]].
    + split; [| done]. intros Hin. exfalso.
      unfold checkStatus_events in Hin.
      repeat match goal with
             | H : _ ∈ _ :: _ |- _ => apply elem_of_cons in H as [H | H]
             | H : _ ∈ [] |- _ => apply elem_of_nil in H
             end; done.
    + split; [| done]. intros (e & Hin & He). exfalso.
      unfold checkStatus_events in Hin.
      repeat match goal with
             | H : _ ∈ _ :: _ |- _ => apply elem_of_cons in H as [H | H]
             | H : _ ∈ [] |- _ => apply elem_of_nil in H
             end; subst; done.
    + done.
    + done.
  - assert (Hlast : exists last,
      trace (snd (handleSecurityBreach sid ts st2))
      = trace st2 ++ BreachHandler sid ts :: breach_log_events sid ts st2
        ++ [last]
      /\ (truthy (notificationEndpoint (config st)) = false ->
            last = strategy_event (blockingStrategy (config st)) sid
            /\ pending (snd (handleSecurityBreach sid ts st2)) = pending st
            /\ snd (handleSecurityBreach sid ts st2)
               = snd (blockingStrategy_switch sid ts
                        (after_breach_log sid ts st2))
            /\ (blockingStrategy (config st) <> "degraded" ->
                blockingStrategy (config st) <> "warning" ->
                status <$> sessions (snd (handleSecurityBreach sid ts st2))
                             !! sid = Some terminated
                /\ terminatedReason
                     <$> sessions (snd (handleSecurityBreach sid ts st2)) !! sid
                   = Some (Some "Security violation detected")))
      /\ (forall endpoint,
            notificationEndpoint (config st) = Some endpoint ->
            truthy (Some endpoint) = true ->
            last = Notify endpoint
                     {| notify_sessionId := sid;
                        notify_timestamp :=
                          fst (clock (snd (clock (world st2))));
                        notify_threats := ts;
                        notify_action := blockingStrategy (config st) |}
            /\ sessions (snd (handleSecurityBreach sid ts st2)) = sessions st
            /\ pending (snd (handleSecurityBreach sid ts st2)) =
               pending st ++ [{| pending_sessionId := sid;
                                 pending_threats := ts |}])).
    { destruct (after_breach_log_frame sid ts st2)
        as (Hses1 & Hcfg1 & Hpen1 & Hworld1 & Htr1).
      destruct (truthy (notificationEndpoint (config st))) eqn:Ht.
      - destruct (notificationEndpoint (config st)) as [ep |] eqn:Hep;
          [| discriminate Ht].
        rewrite <- Hcfg2 in Hep.
        destruct (handleSecurityBreach_suspended_exact sid ts st2 ep Hep Ht)
          as (_ & Hses & Hpen & Htr).
        eexists. split; [exact Htr |]. split; [done |].
        intros endpoint [= <-] _. rewrite Hcfg2, Hses, Hpen, Hses2, Hpen2.
        done.
      - rewrite <- Hcfg2 in Ht.
        rewrite (handleSecurityBreach_direct_exact sid ts st2 Ht).
        cbn [snd]. eexists. split.
        + rewrite blockingStrategy_switch_trace, Htr1, Hcfg1.
          rewrite <- app_assoc. reflexivity.
        + split.
          * intros _. rewrite Hcfg2. split; [reflexivity |].
            split; [by rewrite blockingStrategy_switch_pending, Hpen1 |].
            split; [reflexivity |].
            intros Hd Hw. rewrite <- Hcfg2, <- Hcfg1 in Hd, Hw.
            rewrite (blockingStrategy_switch_terminated sid ts _ Hd Hw).
            rewrite Hses1, Hses2, Hs, lookup_insert_eq. done.
          * intros endpoint Hep Htrue. rewrite Hcfg2 in Ht.
            rewrite Hep in Ht. rewrite Htrue in Ht. discriminate Ht. }
    destruct Hlast as (last & Htr & Hdirect & Hsusp).
    exists (checkStatus_events sid
            ++ BreachHandler sid ts :: breach_log_events sid ts st2 ++ [last]).
    split; [by rewrite Htr, Htr2, <- app_assoc |]. split; [| split; [| split]].
    + split; [done |]. intros _. apply elem_of_app. right. by left.
    + split; [done |]. intros _.
      exists (BreachHandler sid ts). split; [| done].
      apply elem_of_app. right. by left.
    + done.
    + intros _. split; [reflexivity |]. exists last. done.
Qed.

(** *** The store across operations *)

(** What never changes in a session record once it is stored. *)
Definition identity (s : Session) : SessionInfo * Timestamp :=
  (info s, startTime s).

Lemma identity_insert_same (m : gmap string Session) sid s s' :
  m !! sid = Some s -> identity s' = identity s ->
  identity <$> <[sid := s']> m = identity <$> m.
Proof.
  intros Hs Hid. rewrite fmap_insert, Hid.
  apply insert_id. by rewrite lookup_fmap, Hs.
Qed.

Lemma terminateStream_identity sid reason st :
  identity <$> sessions (snd (terminateStream sid reason st))
  = identity <$> sessions st.
Proof.
  rewrite terminateStream_sessions.
  destruct (sessions st !! sid) as [s |] eqn:Hs; [| reflexivity].
  by apply identity_insert_same with s.
Qed.

Lemma cleanup_identity sid st :
  identity <$> sessions (snd (cleanup sid st)) = identity <$> sessions st.
Proof.
  rewrite cleanup_sessions.
  destruct (sessions st !! sid) as [s |] eqn:Hs; [| reflexivity].
  by apply identity_insert_same with s.
Qed.

Lemma blockingStrategy_switch_identity sid ts st :
  identity <$> sessions (snd (blockingStrategy_switch sid ts st))
  = identity <$> sessions st.
Proof.
  unfold blockingStrategy_switch, bind, ret, gets; cbn [fst snd].
  repeat match goal with
         | |- context [if ?b then _ else _] => destruct b
         end; cbn [fst snd];
    first [ apply terminateStream_identity
          | by rewrite degradeStreamQuality_sessions
          | by rewrite issueWarning_sessions ].
Qed.

Lemma handleSecurityBreach_identity sid ts st :
  identity <$> sessions (snd (handleSecurityBreach sid ts st))
  = identity <$> sessions st.
Proof.
  destruct (truthy (notificationEndpoint (config st))) eqn:Ht.
  - destruct (notificationEndpoint (config st)) as [ep |] eqn:Hep;
      [| discriminate Ht].
    destruct (handleSecurityBreach_suspends sid ts st ep Hep Ht)
      as (_ & -> & _). reflexivity.
  - destruct (handleSecurityBreach_direct sid ts st Ht)
      as (st1 & Hses & _ & _ & ->). cbn [snd].
    by rewrite blockingStrategy_switch_identity, Hses.
Qed.

Lemma checkSecurityStatus_unknown sid st :
  sessions st !! sid = None ->
  checkSecurityStatus sid st
  = (Resolved (Invalid {| error := "Invalid session";
                          invalid_secure := false;
                          invalid_timestamp := fst (clock (world st)) |}),
     set_world (snd (clock (world st))) st).
Proof.
  intros Hs. unfold checkSecurityStatus, bind, has, gets; cbn [fst snd].
  rewrite Hs. rewrite bool_decide_eq_false_2 by (intros [? ?]; done).
  reflexivity.
Qed.

Lemma checkSecurityStatus_identity sid st :
  identity <$> sessions (snd (checkSecurityStatus sid st))
  = identity <$> sessions st.
Proof.
  destruct (sessions st !! sid) as [s |] eqn:Hs.
  - destruct (fst (checkStatus_modules sid st)) as [[[p1 p2] p3] p4] eqn:Hps.
    destruct (is_resolved p1 && is_resolved p2 && is_resolved p3
              && is_resolved p4) eqn:Hall.
    + destruct p1 as [v |], p2 as [n |], p3 as [a |], p4 as [f |];
        try discriminate Hall.
      rewrite (checkSecurityStatus_resolved sid st s v n a f Hs Hps).
      cbn [snd].
      destruct (length (collect_threats v n a f) =? 0).
      * cbn [sessions set_world]. by rewrite checkStatus_modules_sessions.
      * rewrite handleSecurityBreach_identity. cbn [sessions set_world].
        by rewrite checkStatus_modules_sessions.
    + destruct (checkSecurityStatus_rejected sid st s p1 p2 p3 p4 Hs Hps Hall)
        as (e & ->). cbn [snd]. by rewrite checkStatus_modules_sessions.
  - by rewrite (checkSecurityStatus_unknown sid st Hs).
Qed.

Lemma settle_notification_identity n delivery st :
  identity <$> sessions (snd (settle_notification n delivery st))
  = identity <$> sessions st.
Proof.
  unfold settle_notification, bind, ret, gets, modify; cbn [fst snd].
  destruct (pending st !! n) as [p |]; [| reflexivity]. cbn [fst snd].
  unfold handleSecurityBreach_resume.
  destruct delivery; unfold bind, ret; cbn [fst snd]; [| reflexivity].
  by rewrite blockingStrategy_switch_identity.
Qed.

(** Every call an outside caller or the event loop can make on the engine. *)
Inductive Operation : Type :=
| OpInitialize (sessionInfo : SessionInfo)
| OpCheckSecurityStatus (sessionId : string)
| OpTerminateStream (sessionId reason : string)
| OpCleanup (sessionId : string)
| OpSettle (n : nat) (delivery : Outcome unit).

Definition run_operation (op : Operation) : St unit :=
  match op with
  | OpInitialize sessionInfo => initialize sessionInfo ;;; ret tt
  | OpCheckSecurityStatus sessionId => checkSecurityStatus sessionId ;;; ret tt
  | OpTerminateStream sessionId reason =>
      terminateStream sessionId reason ;;; ret tt
  | OpCleanup sessionId => cleanup sessionId ;;; ret tt
  | OpSettle n delivery => settle_notification n delivery ;;; ret tt
  end.

Fixpoint run_operations (ops : list Operation) : St unit :=
  match ops with
  | [] => ret tt
  | op :: ops => run_operation op ;;; run_operations ops
  end.

Definition is_initialize (op : Operation) : bool :=
  match op with OpInitialize _ => true | _ => false end.

(** The two ways [initialize] ends. *)
Lemma initialize_cases sessionInfo st :
  (exists e,
     fst (initialize sessionInfo st) = Rejected e
     /\ sessions (snd (initialize sessionInfo st)) = sessions st)
  \/ (exists t token fp,
        fst (initialize sessionInfo st)
        = Resolved {| init_sessionId := fst (generateUniqueId (world st));
                      securityToken := token; fingerprintData := fp |}
        /\ sessions (snd (initialize sessionInfo st))
           = <[fst (generateUniqueId (world st)) := new_session sessionInfo t]>
               (sessions st)
        /\ isInitialized (snd (initialize sessionInfo st)) = true).
Proof.
  unfold initialize, bind.
  destruct (fst (initialize_modules sessionInfo
                   (snd (extern generateUniqueId st))))
    as [[[p1 p2] p3] p4] eqn:Hps.
  destruct (Promise_all4 p1 p2 p3 p4) as [[[[u1 u2] u3] u4] | e].
  - right.
    unfold bind, ret, set, modify, gets, now, extern; cbn [fst snd].
    cbn [sessions isInitialized set_sessions set_world set_isInitialized].
    rewrite initialize_modules_sessions.
    do 3 eexists. repeat split.
  - left. unfold ret; cbn [fst snd].
    rewrite initialize_modules_sessions. eauto.
Qed.

Lemma initialize_sessions sessionInfo st :
  sessions (snd (initialize sessionInfo st)) = sessions st
  \/ exists t,
       sessions (snd (initialize sessionInfo st))
       = <[fst (generateUniqueId (world st)) := new_session sessionInfo t]>
           (sessions st).
Proof.
  destruct (initialize_cases sessionInfo st)
    as [(e & _ & Hses) | (t & _ & _ & _ & Hses & _)]; [by left |].
  right. by exists t.
Qed.

Lemma run_operation_present op sid st :
  is_Some (sessions st !! sid) ->
  is_Some (sessions (snd (run_operation op st)) !! sid).
Proof.
  intros Hin.
  assert (Hid : forall st',
             identity <$> sessions st' = identity <$> sessions st ->
             is_Some (sessions st' !! sid)).
  { intros st' Heq.
    apply (f_equal (fun m => m !! sid)) in Heq. rewrite !lookup_fmap in Heq.
    destruct Hin as [s Hs]. rewrite Hs in Heq.
    destruct (sessions st' !! sid); [eauto | discriminate Heq]. }
  destruct op; unfold run_operation, bind, ret; cbn [fst snd].
  - destruct (initialize_sessions sessionInfo st) as [-> | (t & ->)];
      [done |].
    rewrite lookup_insert. case_decide; [eauto | done].
  - apply Hid, checkSecurityStatus_identity.
  - apply Hid, terminateStream_identity.
  - apply Hid, cleanup_identity.
  - apply Hid, settle_notification_identity.
Qed.

(** X4: no operation ever removes a session: an id the store knows stays known
    through every sequence of [initialize], [checkSecurityStatus],
    [terminateStream], [cleanup] calls and notification settlements. *)
Theorem sessions_never_removed ops : forall sid st,
  is_Some (sessions st !! sid) ->
  is_Some (sessions (snd (run_operations ops st)) !! sid).
Proof.
  induction ops as [| op ops IH]; intros sid st Hin; cbn [run_operations].
  - exact Hin.
  - unfold bind. apply IH. by apply run_operation_present.
Qed.

(** X5: apart from [initialize], no operation adds a session id, and none
    changes the [info] or the [startTime] of a stored session: the store
    keeps the same ids, each with the identity it was created with. *)
Theorem session_identity_kept ops : forall st,
  forallb (fun op => negb (is_initialize op)) ops = true ->
  identity <$> sessions (snd (run_operations ops st)) = identity <$> sessions st.
Proof.
  induction ops as [| op ops IH]; intros st Hops; cbn [run_operations].
  - reflexivity.
  - cbn [forallb] in Hops. apply andb_prop in Hops as [Hop Hops].
    unfold bind. rewrite (IH _ Hops).
    destruct op; try discriminate Hop;
      unfold run_operation, bind, ret; cbn [fst snd].
    + apply checkSecurityStatus_identity.
    + apply terminateStream_identity.
    + apply cleanup_identity.
    + apply settle_notification_identity.
Qed.

(** *** A failing detector during a check *)


(** *** Settlement of a notification *)

(** The [action] property of what a strategy method returns. *)
Definition action_of (a : ActionResult) : string :=
  match a with
  | Terminate r => terminate_action r
  | Degrade r => degrade_action r
  | Warning r => warning_action r
  end.

Definition action_sessionId (a : ActionResult) : string :=
  match a with
  | Terminate r => terminate_sessionId r
  | Degrade r => degrade_sessionId r
  | Warning r => warning_sessionId r
  end.

Lemma blockingStrategy_switch_result sid ts st :
  action_of (fst (blockingStrategy_switch sid ts st))
  = (if String.eqb (blockingStrategy (config st)) "degraded" then "degrade"
     else if String.eqb (blockingStrategy (config st)) "warning" then "warning"
     else "terminate")
  /\ action_sessionId (fst (blockingStrategy_switch sid ts st)) = sid.
Proof.
  unfold blockingStrategy_switch, bind, ret, gets; cbn [fst snd].
  destruct (String.eqb_spec (blockingStrategy (config st)) "immediate")
    as [-> | _]; [by cbn |].
  destruct (String.eqb (blockingStrategy (config st)) "degraded"); [by cbn |].
  destruct (String.eqb (blockingStrategy (config st)) "warning"); by cbn.
Qed.

(** X7: when the awaited delivery resolves, the suspended handler leaves
    the queue, the one strategy method is called, and the handler's promise
    resolves to what that method returned: the 'degrade' object under
    'degraded', the 'warning' object with the threats under 'warning', the
    'terminate' object with reason 'Security violation detected' under every
    other strategy string, for the session the handler was called with and
    with the timestamp the method read.  The engine is left as the method
    leaves it: the store untouched under 'degraded' and 'warning', the session
    set to [terminated] otherwise.  Settling a position the queue does not
    have does nothing. *)
Theorem settle_notification_resolved n st :
  (pending st !! n = None ->
     forall delivery, settle_notification n delivery st = (None, st))
  /\ (forall p, pending st !! n = Some p ->
        let sid := pending_sessionId p in
        let ts := pending_threats p in
        let strategy := blockingStrategy (config st) in
        let st1 := set_pending (delete n (pending st)) st in
        let settled := settle_notification n (Resolved tt) st in
        fst settled
        = Some (Resolved (strategy_result strategy sid ts
                            (strategy_timestamp sid st)))
        /\ fst settled
           = Some (Resolved (fst (blockingStrategy_switch sid ts st1)))
        /\ snd settled = snd (blockingStrategy_switch sid ts st1)
        /\ (exists a,
              fst settled = Some (Resolved a)
              /\ action_of a =
                 (if String.eqb strategy "degraded" then "degrade"
                  else if String.eqb strategy "warning" then "warning"
                       else "terminate")
              /\ action_sessionId a = sid)
        /\ pending (snd settled) = delete n (pending st)
        /\ length (pending (snd settled)) + 1 = length (pending st)
        /\ trace (snd settled) = trace st ++ [strategy_event strategy sid]
        /\ ((strategy = "degraded" \/ strategy = "warning") ->
            sessions (snd settled) = sessions st)
        /\ (strategy <> "degraded" -> strategy <> "warning" ->
            sessions (snd settled) =
            match sessions st !! sid with
            | Some s =>
                <[sid := terminate s "Security violation detected"
                           (fst (clock (world st)))]> (sessions st)
            | None => sessions st
            end)).
Proof.
  split.
  - intros Hp delivery.
    unfold settle_notification, bind, ret, gets; cbn [fst snd].
    by rewrite Hp.
  - intros p Hp sid ts strategy st1 settled.
    assert (Hset : settled
                   = (Some (Resolved (fst (blockingStrategy_switch sid ts st1))),
                      snd (blockingStrategy_switch sid ts st1))).
    { unfold settled, settle_notification, bind, ret, gets, modify;
        cbn [fst snd].
      rewrite Hp. cbn [fst snd]. unfold handleSecurityBreach_resume, bind, ret.
      reflexivity. }
    rewrite Hset. cbn [fst snd].
    destruct (blockingStrategy_switch_result sid ts st1) as (Hact & Hsid).
    split; [by rewrite blockingStrategy_switch_value |].
    split; [reflexivity |]. split; [reflexivity |].
    split; [eexists; split; [reflexivity |]; split; [exact Hact | exact Hsid] |].
    rewrite blockingStrategy_switch_pending. unfold st1 at 1 2.
    cbn [pending set_pending].
    split; [reflexivity |]. split.
    { apply lookup_lt_Some in Hp.
      rewrite length_delete by eauto using lookup_lt_is_Some_2. lia. }
    split; [by rewrite blockingStrategy_switch_trace |].
    split.
    + intros Hsoft. by rewrite blockingStrategy_switch_soft.
    + intros Hd Hw.
      by rewrite (blockingStrategy_switch_terminated sid ts st1 Hd Hw).
Qed.

(** *** The verdict and the stored record *)

(** X8: what [checkSecurityStatus] returns depends on whether the id is in the
    store and on the detectors only: not on the [status] or any other field
    of the record, nor on the configuration.  A terminated or closed session
    is checked like an active one. *)
Theorem checkSecurityStatus_ignores_record sid st st' :
  world st = world st' ->
  (is_Some (sessions st !! sid) <-> is_Some (sessions st' !! sid)) ->
  fst (checkSecurityStatus sid st) = fst (checkSecurityStatus sid st').
Proof.
  intros Hw Hknown.
  destruct (checkStatus_modules_world sid st st' Hw) as (Hfst & Hworld).
  unfold checkSecurityStatus, bind.
  unfold has, gets; cbn [fst snd].
  rewrite (bool_decide_ext _ _ Hknown).
  destruct (negb (bool_decide (is_Some (sessions st' !! sid)))).
  - unfold bind, ret, now, extern; cbn [fst snd]. by rewrite Hw.
  - rewrite Hfst.
    destruct (fst (checkStatus_modules sid st')) as [[[p1 p2] p3] p4].
    destruct (Promise_all4 p1 p2 p3 p4) as [[[[v n] a] f] | e];
      [| reflexivity].
    unfold bind, ret, now, extern; cbn [fst snd]. by rewrite Hworld.
Qed.

(** *** initialize, then the other methods *)

(** X9: a resolved [initialize] returns the generated id, under which the store
    now holds an active record; so a [cleanup] of that id returns [true] and
    a [checkSecurityStatus] of it never answers 'Invalid session'. *)
Theorem initialize_then_known sessionInfo st r :
  fst (initialize sessionInfo st) = Resolved r ->
  let st' := snd (initialize sessionInfo st) in
  init_sessionId r = fst (generateUniqueId (world st))
  /\ (exists t,
        sessions st' !! init_sessionId r = Some (new_session sessionInfo t))
  /\ isInitialized st' = true
  /\ fst (cleanup (init_sessionId r) st') = true
  /\ (forall inv,
        fst (checkSecurityStatus (init_sessionId r) st')
        <> Resolved (Invalid inv)).
Proof.
  intros Hr st'. subst st'.
  destruct (initialize_cases sessionInfo st)
    as [(e & He & _) | (t & token & fp & Hres & Hses & Hinit)].
  { rewrite He in Hr. discriminate Hr. }
  rewrite Hres in Hr. injection Hr as <-. cbn [init_sessionId].
  assert (Hlook : sessions (snd (initialize sessionInfo st))
                    !! fst (generateUniqueId (world st))
                  = Some (new_session sessionInfo t))
    by (rewrite Hses; apply lookup_insert_eq).
  split; [reflexivity |]. split; [eauto |]. split; [exact Hinit |]. split.
  - rewrite cleanup_result, Hlook. by apply bool_decide_eq_true_2.
  - intros inv Hinv.
    set (st1 := snd (initialize sessionInfo st)) in *.
    set (id := fst (generateUniqueId (world st))) in *.
    destruct (fst (checkStatus_modules id st1)) as [[[p1 p2] p3] p4] eqn:Hps.
    destruct (is_resolved p1 && is_resolved p2 && is_resolved p3
              && is_resolved p4) eqn:Hall.
    + destruct p1 as [v |], p2 as [n |], p3 as [a |], p4 as [f |];
        try discriminate Hall.
      rewrite (checkSecurityStatus_resolved id st1 _ v n a f Hlook Hps)
        in Hinv.
      discriminate Hinv.
    + destruct (checkSecurityStatus_rejected id st1 _ p1 p2 p3 p4 Hlook Hps
                  Hall) as (e & He).
      rewrite He in Hinv. discriminate Hinv.
Qed.

(** *** cleanup and a suspended breach handler *)

Lemma cleanup_pending sid : preserves pending (cleanup sid).
Proof.
  intros st. unfold cleanup, bind, ret, get, gets; cbn [fst snd].
  destruct (sessions st !! sid); [| reflexivity]. cbn [fst snd].
  by rewrite !cleanup_module_pending.
Qed.

Lemma cleanup_config sid : preserves config (cleanup sid).
Proof.
  intros st. unfold cleanup, bind, ret, get, gets; cbn [fst snd].
  destruct (sessions st !! sid); [| reflexivity]. cbn [fst snd].
  by rewrite !cleanup_module_config.
Qed.

(** X10: [cleanup] does not withdraw a breach handler that is waiting for its
    notification: the queue is untouched, and when the delivery resolves
    afterwards under 'immediate' (or any strategy but 'degraded' and
    'warning') the closed session becomes [terminated], keeping the
    [closedAt] stamp [cleanup] gave it. *)
Theorem cleanup_keeps_suspended_handler sid ts n st s :
  sessions st !! sid = Some s ->
  pending st !! n = Some {| pending_sessionId := sid; pending_threats := ts |} ->
  blockingStrategy (config st) <> "degraded" ->
  blockingStrategy (config st) <> "warning" ->
  let st1 := snd (cleanup sid st) in
  let st2 := snd (settle_notification n (Resolved tt) st1) in
  pending st1 = pending st
  /\ status <$> sessions st1 !! sid = Some closed
  /\ status <$> sessions st2 !! sid = Some terminated
  /\ closedAt <$> sessions st2 !! sid = Some (Some (fst (clock (world st))))
  /\ terminatedReason <$> sessions st2 !! sid
     = Some (Some "Security violation detected").
Proof.
  intros Hs Hp Hd Hw st1 st2.
  assert (Hpen1 : pending st1 = pending st) by apply cleanup_pending.
  assert (Hcfg1 : config st1 = config st) by apply cleanup_config.
  assert (Hses1 : sessions st1 !! sid
                  = Some (close s (fst (clock (world st))))).
  { unfold st1. by rewrite cleanup_sessions, Hs, lookup_insert_eq. }
  split; [exact Hpen1 |]. split; [by rewrite Hses1 |].
  assert (Hst2 : exists t,
             sessions st2 !! sid
             = Some (terminate (close s (fst (clock (world st))))
                       "Security violation detected" t)).
  { unfold st2, settle_notification, bind, ret, gets, modify; cbn [fst snd].
    rewrite Hpen1, Hp. cbn [fst snd].
    unfold handleSecurityBreach_resume, bind, ret; cbn [fst snd].
    cbn [pending_sessionId pending_threats].
    rewrite blockingStrategy_switch_terminate
      by (cbn [config set_pending]; by rewrite Hcfg1).
    rewrite terminateStream_sessions. cbn [sessions set_pending world].
    rewrite Hses1, lookup_insert_eq. eauto. }
  destruct Hst2 as (t & ->). by cbn.
Qed.

(** *** The constructor *)

Lemma or_default_spec v d :
  (truthy v = false -> or_default v d = d)
  /\ (forall s, v = Some s -> s <> EmptyString -> or_default v d = s)
  /\ (d <> EmptyString -> or_default v d <> EmptyString).
Proof.
  unfold or_default, truthy. destruct v as [s |]; [| repeat split; done].
  destruct (String.eqb_spec s EmptyString) as [-> | Hne]; cbn [negb].
  - split; [done |]. split; [| done]. intros s [= <-] H. by destruct H.
  - split; [done |]. split; [| done]. by intros s' [= <-] _.
Qed.

(** X11: the constructor fills in 'medium', 'immediate' and 'info' where the
    option is absent or the empty string and keeps every other value, so
    these three settings are never empty; [apiKey], [serviceName] and
    [notificationEndpoint] are taken as given.  The engine starts with an
    empty store: every id is unknown to it. *)
Theorem constructor_defaults (raw : RawConfig) (w : World) :
  let st := ContentProtectionAPI raw w in
  let c := config st in
  (truthy (raw_sensitivityLevel raw) = false -> sensitivityLevel c = "medium")
  /\ (truthy (raw_blockingStrategy raw) = false -> blockingStrategy c = "immediate")
  /\ (truthy (raw_loggingLevel raw) = false -> loggingLevel c = "info")
  /\ (forall s, raw_sensitivityLevel raw = Some s -> s <> EmptyString ->
        sensitivityLevel c = s)
  /\ (forall s, raw_blockingStrategy raw = Some s -> s <> EmptyString ->
        blockingStrategy c = s)
  /\ (forall s, raw_loggingLevel raw = Some s -> s <> EmptyString ->
        loggingLevel c = s)
  /\ sensitivityLevel c <> EmptyString
  /\ blockingStrategy c <> EmptyString
  /\ loggingLevel c <> EmptyString
  /\ notificationEndpoint c = raw_notificationEndpoint raw
  /\ (forall sid, sessions st !! sid = None)
  /\ (forall sid, fst (cleanup sid st) = false)
  /\ isInitialized st = false.
Proof.
  cbv zeta. cbn [ContentProtectionAPI config mkConfig sessions isInitialized
                 sensitivityLevel blockingStrategy loggingLevel
                 notificationEndpoint].
  destruct (or_default_spec (raw_sensitivityLevel raw) "medium")
    as (Hs1 & Hs2 & Hs3).
  destruct (or_default_spec (raw_blockingStrategy raw) "immediate")
    as (Hb1 & Hb2 & Hb3).
  destruct (or_default_spec (raw_loggingLevel raw) "info")
    as (Hl1 & Hl2 & Hl3).
  do 6 (split; [assumption |]).
  split; [by apply Hs3 |]. split; [by apply Hb3 |]. split; [by apply Hl3 |].
  split; [reflexivity |]. split; [| split; [| reflexivity]].
  - intros sid. apply lookup_empty.
  - intros sid. rewrite cleanup_result. cbn [sessions ContentProtectionAPI].
    rewrite lookup_empty. apply bool_decide_eq_false_2. by intros [? ?].
Qed.

(** ** The HTTP handler of [api/index.js] *)

(** The request body: the properties the handler reads.  Each is [undefined]
    or a string, but [sessionInfo], which is any JSON value. *)
Record Body : Type := {
  body_serviceName : option string;
  body_sensitivityLevel : option string;
  body_blockingStrategy : option string;
  body_notificationEndpoint : option string;
  body_loggingLevel : option string;
  body_sessionInfo : option SessionInfo;
  body_sessionId : option string;
  body_reason : option string
}.

(** The request: [req.method], [req.headers.authorization], [req.body]
    ([undefined] when the request has none), [req.query.endpoint] and
    [req.query.sessionId]. *)
Record Request : Type := {
  method : string;
  authorization : option string;
  body : option Body;
  query_endpoint : option string;
  query_sessionId : option string
}.

(** What is handed to [res.json], or nothing for [res.end()]. *)
Inductive Json : Type :=
| NoBody
| ErrorJson (error : string) (message : option string)
| InitJson (r : InitResult)
| StatusJson (r : CheckResult)
| TerminateJson (r : TerminationResult)
| SuccessJson (status message : string)
| RunningJson (status version : string) (timestamp : Timestamp).

Record Response : Type := { statusCode : nat; json : Json }.

(** One run of the handler: the headers it set, the response it sent (or
    the error it threw before sending one), what it wrote with
    [console.error], the engine it built for the request, if it got that
    far, and the world it leaves. *)
Record Handled : Type := {
  headers : list (string * string);
  result : Outcome Response;
  console_errors : list string;
  engine : option Engine;
  outside : World
}.

(** Truthiness of a JSON value and the object literal [{}]. *)
Variable info_truthy : SessionInfo -> bool.
Variable empty_object : SessionInfo.

(** Lines 6-12. *)
Definition cors_headers : list (string * string) :=
  [("Access-Control-Allow-Credentials", "true");
   ("Access-Control-Allow-Origin", "*");
   ("Access-Control-Allow-Methods", "GET,OPTIONS,POST");
   ("Access-Control-Allow-Headers",
    "X-CSRF-Token, X-Requested-With, Accept, Accept-Version, Content-Length, Content-MD5, Content-Type, Date, X-Api-Version, Authorization")].

(** [s.split(sep)] for a one-character separator. *)
Fixpoint split (sep : Ascii.ascii) (s : string) : list string :=
  match s with
  | EmptyString => [EmptyString]
  | String c rest =>
      if Ascii.eqb c sep then EmptyString :: split sep rest
      else match split sep rest with
           | head :: tail => String c head :: tail
           | [] => [String c EmptyString]
           end
  end.

(** The space character, code 32. *)
Definition space : Ascii.ascii :=
  Ascii.Ascii false false false false false true false false.

(** [req.headers.authorization?.split(' ')[1]] (line 20). *)
Definition apiKey_of (req : Request) : option string :=
  match authorization req with
  | Some a => split space a !! 1
  | None => None
  end.

(** The string a truthy property holds. *)
Definition truthy_string (v : option string) : option string :=
  match v with
  | Some s => if String.eqb s EmptyString then None else Some s
  | None => None
  end.

(** [a || b] where the result may still be [undefined]. *)
Definition or_else (a b : option string) : option string :=
  if truthy a then a else b.

Definition answer (code : nat) (j : Json) (errors : list string)
    (protectionAPI : option Engine) (w : World) : Handled :=
  {| headers := cors_headers;
     result := Resolved {| statusCode := code; json := j |};
     console_errors := errors;
     engine := protectionAPI;
     outside := w |}.

(** The [catch] block (lines 92-98). *)
Definition caught (e : string) (protectionAPI : Engine) : Handled :=
  answer 500 (ErrorJson "Internal server error" (Some e)) [e]
    (Some protectionAPI) (world protectionAPI).

Definition sent (code : nat) (j : Json) (protectionAPI : Engine) : Handled :=
  answer code j [] (Some protectionAPI) (world protectionAPI).

(** [req.body.sessionInfo || {}] (line 45). *)
Definition sessionInfo_or_empty (b : Body) : SessionInfo :=
  match body_sessionInfo b with
  | Some i => if info_truthy i then i else empty_object
  | None => empty_object
  end.

(** The [try] block (lines 35-91), on the engine built for the request. *)
Definition route (req : Request) (b : Body) (protectionAPI : Engine) : Handled :=
  let endpoint := or_default (query_endpoint req) "status" in
  if String.eqb endpoint "initialize" then
    if negb (String.eqb (method req) "POST") then
      sent 405 (ErrorJson "Method not allowed" None) protectionAPI
    else
      let r := initialize (sessionInfo_or_empty b) protectionAPI in
      match fst r with
      | Resolved initResult => sent 200 (InitJson initResult) (snd r)
      | Rejected e => caught e (snd r)
      end
  else if String.eqb endpoint "check" then
    match truthy_string (or_else (query_sessionId req) (body_sessionId b)) with
    | None => sent 400 (ErrorJson "Session ID is required" None) protectionAPI
    | Some sessionId =>
        let r := checkSecurityStatus sessionId protectionAPI in
        match fst r with
        | Resolved securityStatus => sent 200 (StatusJson securityStatus) (snd r)
        | Rejected e => caught e (snd r)
        end
    end
  else if String.eqb endpoint "terminate" then
    if negb (String.eqb (method req) "POST") then
      sent 405 (ErrorJson "Method not allowed" None) protectionAPI
    else
      let reason := or_default (body_reason b) "Manual termination" in
      match truthy_string (body_sessionId b) with
      | None => sent 400 (ErrorJson "Session ID is required" None) protectionAPI
      | Some terminateSessionId =>
          let r := terminateStream terminateSessionId reason protectionAPI in
          sent 200 (TerminateJson (fst r)) (snd r)
      end
  else if String.eqb endpoint "cleanup" then
    if negb (String.eqb (method req) "POST") then
      sent 405 (ErrorJson "Method not allowed" None) protectionAPI
    else
      match truthy_string (body_sessionId b) with
      | None => sent 400 (ErrorJson "Session ID is required" None) protectionAPI
      | Some cleanupSessionId =>
          let r := cleanup cleanupSessionId protectionAPI in
          sent 200 (SuccessJson "success" "Session cleaned up") (snd r)
      end
  else
    let r := now protectionAPI in
    sent 200 (RunningJson "running" "1.0.0" (fst r)) (snd r).

(** The configuration object of lines 26-33. *)
Definition request_config (apiKey : option string) (b : Body) : RawConfig :=
  {| raw_apiKey := apiKey;
     raw_serviceName := Some (or_default (body_serviceName b) "default");
     raw_sensitivityLevel := Some (or_default (body_sensitivityLevel b) "medium");
     raw_blockingStrategy := Some (or_default (body_blockingStrategy b) "immediate");
     raw_notificationEndpoint := body_notificationEndpoint b;
     raw_loggingLevel := Some (or_default (body_loggingLevel b) "info") |}.

(** The exported handler (lines 4-99).  Reading a property of an absent
    body throws, before the [try]: the handler's promise rejects and no
    response is sent. *)
Definition handler (req : Request) (w : World) : Handled :=
  if String.eqb (method req) "OPTIONS" then answer 200 NoBody [] None w
  else
    let apiKey := apiKey_of req in
    if negb (truthy apiKey) then
      answer 401 (ErrorJson "Unauthorized" (Some "API key is required")) []
        None w
    else
      match body req with
      | None =>
          {| headers := cors_headers; result := Rejected "TypeError";
             console_errors := []; engine := None; outside := w |}
      | Some b => route req b (ContentProtectionAPI (request_config apiKey b) w)
      end.

(** *** The API key *)

Fixpoint no_space (s : string) : bool :=
  match s with
  | EmptyString => true
  | String c rest => negb (Ascii.eqb c space) && no_space rest
  end.

Lemma split_cons sep s : exists head tail, split sep s = head :: tail.
Proof.
  destruct s as [| c rest]; cbn [split]; [eauto |].
  destruct (Ascii.eqb c sep); [eauto |].
  destruct (split sep rest); eauto.
Qed.

Lemma split_no_space s : no_space s = true -> split space s = [s].
Proof.
  induction s as [| c rest IH]; cbn [no_space split]; [done |].
  intros [Hc Hrest]%andb_prop. apply negb_true_iff in Hc. rewrite Hc.
  by rewrite (IH Hrest).
Qed.

Lemma split_first_space a rest :
  no_space a = true ->
  split space (a +:+ String space rest) = a :: split space rest.
Proof.
  induction a as [| c a IH]; simpl.
  - intros _. by rewrite ?Ascii.eqb_refl.
  - intros [Hc Ha]%andb_prop. apply negb_true_iff in Hc. rewrite Hc.
    by rewrite (IH Ha).
Qed.

(** X12: the key is what stands between the first and the second space of the
    [Authorization] header.  A header 'scheme token' yields the token; a
    header with no space yields none, and one with two spaces in a row after
    the scheme yields the empty string, which counts as no key. *)
Theorem apiKey_of_authorization req a :
  authorization req = Some a ->
  (no_space a = true -> apiKey_of req = None)
  /\ (forall scheme token,
        a = scheme +:+ String space token ->
        no_space scheme = true -> no_space token = true ->
        apiKey_of req = Some token)
  /\ (forall scheme token rest,
        a = scheme +:+ String space (token +:+ String space rest) ->
        no_space scheme = true -> no_space token = true ->
        apiKey_of req = Some token)
  /\ (forall scheme rest,
        a = scheme +:+ String space (String space rest) ->
        no_space scheme = true ->
        apiKey_of req = Some EmptyString
        /\ truthy (apiKey_of req) = false).
Proof.
  intros Ha. unfold apiKey_of. rewrite Ha. split; [| split; [| split]].
  - intros Hns. by rewrite split_no_space.
  - intros scheme token -> Hs Ht.
    by rewrite split_first_space, split_no_space.
  - intros scheme token rest -> Hs Ht.
    by rewrite !split_first_space.
  - intros scheme rest -> Hs.
    rewrite split_first_space by done.
    change (String space rest) with (EmptyString +:+ String space rest).
    rewrite split_first_space by done. done.
Qed.

(** *** The gates of the handler *)

Lemma handler_routed req w b :
  method req <> "OPTIONS" ->
  truthy (apiKey_of req) = true ->
  body req = Some b ->
  handler req w
  = route req b (ContentProtectionAPI (request_config (apiKey_of req) b) w).
Proof.
  intros Hm Hk Hb. unfold handler.
  destruct (String.eqb_spec (method req) "OPTIONS"); [done |].
  by rewrite Hk, Hb.
Qed.

Lemma fresh_check raw w sid :
  checkSecurityStatus sid (ContentProtectionAPI raw w)
  = (Resolved (Invalid {| error := "Invalid session";
                          invalid_secure := false;
                          invalid_timestamp := fst (clock w) |}),
     set_world (snd (clock w)) (ContentProtectionAPI raw w)).
Proof. apply checkSecurityStatus_unknown, lookup_empty. Qed.

Lemma fresh_cleanup raw w sid :
  cleanup sid (ContentProtectionAPI raw w)
  = (false, ContentProtectionAPI raw w).
Proof.
  unfold cleanup, bind, ret, get, gets; cbn [fst snd].
  cbn [sessions ContentProtectionAPI]. by rewrite lookup_empty.
Qed.

(** X13: a preflight request is answered 200 with no body whatever else it
    carries; any other request with no usable key is answered 401.  Either
    way no engine is built and nothing outside is touched.  With a key and a
    body the request reaches the router, on an engine that is new for this
    request: its store is empty.  With a key and no body the handler throws
    before it can answer. *)
Theorem handler_gates req w :
  (method req = "OPTIONS" -> handler req w = answer 200 NoBody [] None w)
  /\ (method req <> "OPTIONS" -> truthy (apiKey_of req) = false ->
        handler req w
        = answer 401 (ErrorJson "Unauthorized" (Some "API key is required"))
            [] None w)
  /\ (method req <> "OPTIONS" -> truthy (apiKey_of req) = true ->
        body req = None ->
        result (handler req w) = Rejected "TypeError"
        /\ engine (handler req w) = None /\ outside (handler req w) = w)
  /\ (forall b, method req <> "OPTIONS" -> truthy (apiKey_of req) = true ->
        body req = Some b ->
        exists st0,
          handler req w = route req b st0
          /\ sessions st0 = ∅ /\ pending st0 = [] /\ trace st0 = []
          /\ world st0 = w).
Proof.
  split; [| split; [| split]].
  - intros Hm. unfold handler. by rewrite Hm.
  - intros Hm Hk. unfold handler.
    destruct (String.eqb_spec (method req) "OPTIONS"); [done |].
    by rewrite Hk.
  - intros Hm Hk Hb. unfold handler.
    destruct (String.eqb_spec (method req) "OPTIONS"); [done |].
    by rewrite Hk, Hb.
  - intros b Hm Hk Hb. eexists. split; [by apply handler_routed |]. done.
Qed.

(** X14: the 'check' route never gives a verdict: the engine was built for this
    request, so whatever session id is sent, the answer is 200 with
    'Invalid session', [secure: false], and no detector is asked. *)
Theorem handler_check_always_invalid req w b sid :
  method req <> "OPTIONS" ->
  truthy (apiKey_of req) = true ->
  body req = Some b ->
  query_endpoint req = Some "check" ->
  truthy_string (or_else (query_sessionId req) (body_sessionId b)) = Some sid ->
  let h := handler req w in
  result h =
    Resolved {| statusCode := 200;
                json := StatusJson
                  (Invalid {| error := "Invalid session";
                              invalid_secure := false;
                              invalid_timestamp := fst (clock w) |}) |}
  /\ console_errors h = []
  /\ outside h = snd (clock w)
  /\ exists st, engine h = Some st /\ trace st = [] /\ sessions st = ∅.
Proof.
  intros Hm Hk Hb Hep Hsid h. subst h.
  rewrite (handler_routed req w b Hm Hk Hb).
  unfold route. rewrite Hep. cbn [or_default String.eqb Ascii.eqb Bool.eqb].
  rewrite Hsid, fresh_check. cbn [fst snd].
  repeat split. eexists. repeat split.
Qed.

(** X15: the 'cleanup' route answers 200 'success', 'Session cleaned up' for
    every session id, although the engine's [cleanup] found no such session:
    no module is asked to clean up and nothing outside changes. *)
Theorem handler_cleanup_reports_success req w b sid :
  method req = "POST" ->
  truthy (apiKey_of req) = true ->
  body req = Some b ->
  query_endpoint req = Some "cleanup" ->
  truthy_string (body_sessionId b) = Some sid ->
  let h := handler req w in
  result h = Resolved {| statusCode := 200;
                         json := SuccessJson "success" "Session cleaned up" |}
  /\ outside h = w
  /\ (exists st,
        engine h = Some st /\ trace st = [] /\ sessions st = ∅
        /\ fst (cleanup sid st) = false).
Proof.
  intros Hm Hk Hb Hep Hsid h. subst h.
  rewrite (handler_routed req w b) by (rewrite ?Hm; done).
  unfold route. rewrite Hep, Hm.
  cbn [or_default String.eqb Ascii.eqb Bool.eqb negb].
  rewrite Hsid, fresh_cleanup. cbn [fst snd].
  split; [reflexivity |]. split; [reflexivity |].
  eexists. split; [reflexivity |]. split; [reflexivity |].
  split; [reflexivity |]. by rewrite fresh_cleanup.
Qed.

(** X16: the 'terminate' route reads the session id from the body only (an id in
    the query string does not count) and answers 400 without one; with one
    it answers 200 with the terminate object, the reason defaulting to
    'Manual termination', and no session anywhere is changed: the engine's
    store stays empty. *)
Theorem handler_terminate req w b :
  method req = "POST" ->
  truthy (apiKey_of req) = true ->
  body req = Some b ->
  query_endpoint req = Some "terminate" ->
  let h := handler req w in
  (truthy_string (body_sessionId b) = None ->
     result h = Resolved {| statusCode := 400;
                            json := ErrorJson "Session ID is required" None |})
  /\ (forall sid, truthy_string (body_sessionId b) = Some sid ->
        result h =
          Resolved {| statusCode := 200;
                      json := TerminateJson
                        {| terminate_action := "terminate";
                           reason := or_default (body_reason b)
                                       "Manual termination";
                           terminate_sessionId := sid;
                           terminate_timestamp := fst (clock w) |} |}
        /\ exists st, engine h = Some st /\ sessions st = ∅).
Proof.
  intros Hm Hk Hb Hep h. subst h.
  rewrite (handler_routed req w b) by (rewrite ?Hm; done).
  unfold route. rewrite Hep, Hm.
  cbn [or_default String.eqb Ascii.eqb Bool.eqb negb].
  split.
  - intros ->. reflexivity.
  - intros sid ->.
    cbn [result sent answer engine]. split.
    + unfold terminateStream, bind, ret, get, gets, emit, now, extern;
        cbn [fst snd]. cbn [sessions set_trace ContentProtectionAPI].
      rewrite lookup_empty. reflexivity.
    + eexists. split; [reflexivity |].
      rewrite terminateStream_sessions.
      cbn [sessions ContentProtectionAPI]. by rewrite lookup_empty.
Qed.

(** Closes one leaf of the router: the response is read off, then each
    side of each equivalence is settled from the case at hand. *)
Ltac status_leaf :=
  do 2 eexists; (split; [reflexivity |]); cbn [is_resolved];
  repeat first [ split | intro ];
  repeat match goal with
         | H : _ /\ _ |- _ => destruct H
         | H : _ \/ _ |- _ => destruct H
         end;
  try congruence; try lia; auto 6.

(** X17: which status a routed request gets.  405 iff the method is not POST on
    one of the three guarded routes, checked before the session id; 400 iff
    the session id is missing where one is read; 500 iff the 'initialize'
    route ran and a detector initialization rejected, the only way into the
    [catch] block; 200 in every other case, which includes every endpoint
    name the router does not know, answered as a status probe. *)
Theorem handler_status_table req w b :
  method req <> "OPTIONS" ->
  truthy (apiKey_of req) = true ->
  body req = Some b ->
  let ep := or_default (query_endpoint req) "status" in
  let st0 := ContentProtectionAPI (request_config (apiKey_of req) b) w in
  exists code j,
    result (handler req w) = Resolved {| statusCode := code; json := j |}
    /\ (code = 405 <->
        method req <> "POST"
        /\ (ep = "initialize" \/ ep = "terminate" \/ ep = "cleanup"))
    /\ (code = 400 <->
        (ep = "check"
         /\ truthy_string (or_else (query_sessionId req) (body_sessionId b))
            = None)
        \/ (method req = "POST" /\ (ep = "terminate" \/ ep = "cleanup")
            /\ truthy_string (body_sessionId b) = None))
    /\ (code = 500 <->
        method req = "POST" /\ ep = "initialize"
        /\ is_resolved (fst (initialize (sessionInfo_or_empty b) st0)) = false)
    /\ (code = 200 \/ code = 400 \/ code = 405 \/ code = 500)
    /\ (ep <> "initialize" -> ep <> "check" -> ep <> "terminate" ->
        ep <> "cleanup" ->
        code = 200 /\ j = RunningJson "running" "1.0.0" (fst (clock w))).
Proof.
  intros Hm Hk Hb ep st0.
  rewrite (handler_routed req w b Hm Hk Hb). fold st0.
  pose proof (fresh_check (request_config (apiKey_of req) b) w) as Hfresh.
  fold st0 in Hfresh.
  unfold route. fold ep.
  destruct (String.eqb_spec ep "initialize") as [Hi | Hi].
  { destruct (String.eqb_spec (method req) "POST") as [Hp | Hp]; cbn [negb].
    - destruct (fst (initialize (sessionInfo_or_empty b) st0)) eqn:Hinit;
        status_leaf.
    - status_leaf. }
  destruct (String.eqb_spec ep "check") as [Hc | Hc].
  { destruct (truthy_string (or_else (query_sessionId req) (body_sessionId b)))
      eqn:Hqid; [rewrite Hfresh; cbn [fst snd] |]; status_leaf. }
  destruct (String.eqb_spec ep "terminate") as [Ht | Ht].
  { destruct (String.eqb_spec (method req) "POST") as [Hp | Hp]; cbn [negb].
    - destruct (truthy_string (body_sessionId b)) eqn:Hbid; status_leaf.
    - status_leaf. }
  destruct (String.eqb_spec ep "cleanup") as [Hl | Hl].
  { destruct (String.eqb_spec (method req) "POST") as [Hp | Hp]; cbn [negb].
    - destruct (truthy_string (body_sessionId b)) eqn:Hbid; status_leaf.
    - status_leaf. }
  status_leaf.
Qed.

End Engine.

(** * A concrete deployment

    The world is a counter: the clock and the id generator read it and move
    it on; the detectors answer with fixed results.  The engine is run on it
    to instantiate the theorems above and to exhibit the runs that refute a
    claim. *)

Definition decimal (n : nat) : string := NilZero.string_of_uint (Nat.to_uint n).

Definition test_clock (w : nat) : Timestamp * nat := ("t" +:+ decimal w, S w).

Definition test_generateUniqueId (w : nat) : string * nat :=
  ("session-" +:+ decimal w, S w).

Definition test_generateSecurityToken (sessionInfo : string) (c : Config)
    (w : nat) : string * nat :=
  ("token", w).

Definition test_notifySecurityEvent (endpoint : string)
    (payload : @Notification string string) (w : nat) : nat := w.

Definition test_getClientFingerprint (w : nat) : string * nat :=
  ("fingerprint", w).

(** A detector with a fixed answer to [initialize] and to [checkStatus]. *)
Definition test_detector {R} (init : Outcome unit) (result : Outcome R)
    (has_cleanup : bool) : @Detector string nat R :=
  {| mod_initialize := fun _ _ w => (init, w);
     mod_checkStatus := fun _ w => (result, w);
     mod_cleanup := if has_cleanup then Some (fun _ w => w) else None |}.

Definition vpn_report (found : bool) : @VpnStatus string :=
  {| detected := found; vpn_details := "exit node" |}.

(** The VPN detector reports [found]; the anomaly detector answers
    [anomaly_init] to [initialize]; everything else is clean.  The VPN and
    anomaly modules have a [cleanup] method, the other two have none. *)
Definition test_modules (found : bool) (anomaly_init : Outcome unit)
  : @Modules string string string nat :=
  {| vpnDetection := test_detector (Resolved tt) (Resolved (vpn_report found)) true;
     networkAnalysis :=
       test_detector (Resolved tt)
         (Resolved {| suspicious := false; network_details := "direct" |}) false;
     anomalyDetection :=
       test_detector anomaly_init (Resolved {| anomalies := [] |}) true;
     contentFingerprinting :=
       test_detector (Resolved tt)
         (Resolved {| valid := true; fingerprint_details := "match" |}) false |}.

Definition clean_modules := test_modules false (Resolved tt).
Definition vpn_modules := test_modules true (Resolved tt).

Definition test_config (strategy : string) (endpoint : option string)
  : RawConfig :=
  {| raw_apiKey := Some "key"; raw_serviceName := Some "default";
     raw_sensitivityLevel := None;
     raw_blockingStrategy := Some strategy;
     raw_notificationEndpoint := endpoint;
     raw_loggingLevel := None |}.

Definition fresh_engine (strategy : string) (endpoint : option string)
  : @Engine string string string nat :=
  ContentProtectionAPI (test_config strategy endpoint) 0.

Notation test_initialize :=
  (initialize test_clock test_generateUniqueId test_generateSecurityToken
     test_getClientFingerprint).

Notation test_checkSecurityStatus :=
  (checkSecurityStatus test_clock test_notifySecurityEvent).

(** An engine with one active session, 'session-0'. *)
Definition open_engine (strategy : string) (endpoint : option string)
  : @Engine string string string nat :=
  snd (test_initialize clean_modules "viewer" (fresh_engine strategy endpoint)).

Definition active_session : @Session string :=
  {| info := "viewer"; startTime := "t1"; status := active;
     terminatedReason := None; terminatedAt := None; closedAt := None |}.

(** The same engine after [cleanup('session-0')]. *)
Definition closed_engine : @Engine string string string nat :=
  snd (cleanup test_clock clean_modules "session-0"
         (open_engine "immediate" None)).

(** The same engine after [terminateStream('session-0', ...)]. *)
Definition terminated_engine : @Engine string string string nat :=
  snd (terminateStream test_clock "session-0" "Manual termination"
         (open_engine "immediate" None)).

Definition vpn_threat : @Threat string string :=
  {| type := vpn; details := VpnResult (vpn_report true) |}.

Definition vpn_verdict : @SecurityStatus string string :=
  {| secure := false; timestamp := "t2"; sessionId := "session-0";
     threats := [vpn_threat] |}.

Definition hook : string := "https://soc.example/hook".

Example open_engine_session :
  sessions (open_engine "immediate" None) !! "session-0" = Some active_session.
Proof. vm_compute. reflexivity. Qed.

Example closed_engine_session :
  sessions closed_engine !! "session-0" = Some (close active_session "t2").
Proof. vm_compute. reflexivity. Qed.

Example vpn_check_result :
  fst (test_checkSecurityStatus vpn_modules "session-0"
         (open_engine "immediate" None))
  = Resolved (Verdict vpn_verdict).
Proof. vm_compute. reflexivity. Qed.

(** The scenario of the specification: under 'immediate' with no endpoint, a
    VPN report terminates the session. *)
Example vpn_check_terminates :
  sessions (snd (test_checkSecurityStatus vpn_modules "session-0"
                   (open_engine "immediate" None))) !! "session-0"
  = Some (terminate active_session "Security violation detected" "t4").
Proof. vm_compute. reflexivity. Qed.

Example clean_check_result :
  fst (test_checkSecurityStatus clean_modules "session-0"
         (open_engine "immediate" None))
  = Resolved (Verdict {| secure := true; timestamp := "t2";
                         sessionId := "session-0"; threats := [] |}).
Proof. vm_compute. reflexivity. Qed.

(** ** The claims at the concrete deployment *)

Definition end_calls : list LifecycleCall :=
  [CallTerminateStream "session-0" "Manual termination";
   CallCleanup "session-0"].

(** C1, witness: the closed session of [closed_engine]. *)
Lemma terminal_status_stays_terminal_witness :
  sessions closed_engine !! "session-0" = Some (close active_session "t2")
  /\ is_terminal (status (close active_session "t2")) = true
  /\ (exists s',
        sessions (snd (run_calls test_clock clean_modules end_calls
                         closed_engine)) !! "session-0" = Some s'
        /\ is_terminal (status s') = true)
  /\ (forall reason,
        status <$> sessions (snd (terminateStream test_clock "session-0"
                                    reason closed_engine)) !! "session-0"
        = Some terminated)
  /\ status <$> sessions (snd (cleanup test_clock clean_modules "session-0"
                                 closed_engine)) !! "session-0"
     = Some closed.
Proof.
  assert (H1 : sessions closed_engine !! "session-0"
               = Some (close active_session "t2"))
    by (vm_compute; reflexivity).
  split; [exact H1 |]. split; [reflexivity |].
  exact (terminal_status_stays_terminal test_clock clean_modules "session-0"
           (close active_session "t2") end_calls closed_engine H1 eq_refl).
Defined.

(** C1, counterexample to the claim as written: [terminateStream] on a
    closed session makes it [terminated], and [cleanup] on a terminated
    session makes it [closed]; each switches to the other terminal state. *)
Lemma terminal_status_switches :
  status <$> sessions closed_engine !! "session-0" = Some closed
  /\ status <$> sessions (snd (terminateStream test_clock "session-0"
                                 "Manual termination" closed_engine))
                  !! "session-0" = Some terminated
  /\ status <$> sessions terminated_engine !! "session-0" = Some terminated
  /\ status <$> sessions (snd (cleanup test_clock clean_modules "session-0"
                                 terminated_engine)) !! "session-0"
     = Some closed.
Proof. vm_compute. repeat split. Qed.

(** C10, witness: an id the store does not have. *)
Lemma terminateStream_unknown_session_witness :
  let st := open_engine "immediate" None in
  sessions st !! "ghost" = None
  /\ sessions (snd (terminateStream test_clock "ghost" "Manual termination" st))
     = sessions st
  /\ sessions (snd (terminateStream test_clock "ghost" "Manual termination" st))
       !! "ghost" = None
  /\ fst (terminateStream test_clock "ghost" "Manual termination" st) =
     {| terminate_action := "terminate"; reason := "Manual termination";
        terminate_sessionId := "ghost";
        terminate_timestamp := fst (test_clock (world st)) |}
  /\ (forall st' : @Engine string string string nat, exists t,
        fst (terminateStream test_clock "ghost" "Manual termination" st') =
        {| terminate_action := "terminate"; reason := "Manual termination";
           terminate_sessionId := "ghost"; terminate_timestamp := t |}).
Proof.
  intros st.
  assert (H1 : sessions st !! "ghost" = None) by (vm_compute; reflexivity).
  split; [exact H1 |].
  exact (terminateStream_unknown_session test_clock "ghost"
           "Manual termination" st H1).
Defined.

(** C7, witness: an id the store does not have. *)
Lemma checkSecurityStatus_unknown_session_witness :
  let st := open_engine "immediate" None in
  sessions st !! "ghost" = None
  /\ fst (test_checkSecurityStatus vpn_modules "ghost" st) =
     Resolved (Invalid {| error := "Invalid session";
                          invalid_secure := false;
                          invalid_timestamp := fst (test_clock (world st)) |})
  /\ snd (test_checkSecurityStatus vpn_modules "ghost" st)
     = set_world (snd (test_clock (world st))) st
  /\ sessions (snd (test_checkSecurityStatus vpn_modules "ghost" st))
     = sessions st.
Proof.
  intros st.
  assert (H1 : sessions st !! "ghost" = None) by (vm_compute; reflexivity).
  split; [exact H1 |].
  exact (checkSecurityStatus_unknown_session test_clock
           test_notifySecurityEvent vpn_modules "ghost" st H1).
Defined.



(** C3, witness: the verdict of the same check. *)
Lemma secure_iff_no_threats_witness :
  let st := open_engine "immediate" None in
  sessions st !! "session-0" = Some active_session
  /\ fst (test_checkSecurityStatus vpn_modules "session-0" st)
     = Resolved (Verdict vpn_verdict)
  /\ exists status,
       Verdict vpn_verdict = Verdict status
       /\ (secure status = true <-> threats status = []).
Proof.
  intros st.
  assert (H1 : sessions st !! "session-0" = Some active_session)
    by (vm_compute; reflexivity).
  assert (H2 : fst (test_checkSecurityStatus vpn_modules "session-0" st)
               = Resolved (Verdict vpn_verdict))
    by (vm_compute; reflexivity).
  split; [exact H1 |]. split; [exact H2 |].
  exact (secure_iff_no_threats test_clock test_notifySecurityEvent vpn_modules
           "session-0" st active_session (Verdict vpn_verdict) H1 H2).
Defined.

(** C4, witness: the same check, whose verdict is not secure; under
    'immediate' with no endpoint the handler has run to its end. *)
Lemma breach_handler_iff_not_secure_witness :
  let st := open_engine "immediate" None in
  let st' := snd (test_checkSecurityStatus vpn_modules "session-0" st) in
  sessions st !! "session-0" = Some active_session
  /\ fst (test_checkSecurityStatus vpn_modules "session-0" st)
     = Resolved (Verdict vpn_verdict)
  /\ (exists evs,
        trace st' = trace st ++ evs
        /\ (BreachHandler "session-0" (threats vpn_verdict) ∈ evs
            <-> secure vpn_verdict = false)
        /\ ((exists e, e ∈ evs /\ breach_activity e = true)
            <-> secure vpn_verdict = false))
  /\ status <$> sessions st' !! "session-0" = Some terminated
  /\ terminatedReason <$> sessions st' !! "session-0"
     = Some (Some "Security violation detected").
Proof.
  intros st st'.
  assert (H1 : sessions st !! "session-0" = Some active_session)
    by (vm_compute; reflexivity).
  assert (H2 : fst (test_checkSecurityStatus vpn_modules "session-0" st)
               = Resolved (Verdict vpn_verdict))
    by (vm_compute; reflexivity).
  split; [exact H1 |]. split; [exact H2 |].
  destruct (breach_handler_iff_not_secure test_clock test_notifySecurityEvent
              vpn_modules "session-0" st active_session vpn_verdict H1 H2)
    as (evs & Htr & Hiff & Hact & _ & Hbreach).
  split; [exists evs; split; [exact Htr |]; split; [exact Hiff | exact Hact] |].
  destruct (Hbreach eq_refl) as (_ & last & _ & Hdirect & _).
  destruct (Hdirect eq_refl) as (_ & _ & _ & Hterm).
  apply Hterm; intros H; discriminate H.
Defined.

(** C5, witness: 'immediate' with no endpoint. *)
Lemma blocking_strategy_effect_witness :
  let st := open_engine "immediate" None in
  let st' := snd (handleSecurityBreach test_clock test_notifySecurityEvent
                    "session-0" [vpn_threat] st) in
  blockingStrategy (config st) <> "degraded"
  /\ blockingStrategy (config st) <> "warning"
  /\ truthy (notificationEndpoint (config st)) = false
  /\ sessions st !! "session-0" = Some active_session
  /\ exists t,
       sessions st' =
         <["session-0" :=
             {| info := info active_session;
                startTime := startTime active_session;
                status := terminated;
                terminatedReason := Some "Security violation detected";
                terminatedAt := Some t;
                closedAt := closedAt active_session |}]> (sessions st)
       /\ status <$> sessions st' !! "session-0" = Some terminated.
Proof.
  intros st st'.
  assert (H1 : blockingStrategy (config st) <> "degraded")
    by (intros H; discriminate H).
  assert (H2 : blockingStrategy (config st) <> "warning")
    by (intros H; discriminate H).
  assert (H3 : truthy (notificationEndpoint (config st)) = false)
    by reflexivity.
  assert (H4 : sessions st !! "session-0" = Some active_session)
    by (vm_compute; reflexivity).
  do 4 (split; [assumption |]).
  destruct (blocking_strategy_effect test_clock test_notifySecurityEvent
              "session-0" [vpn_threat] st) as (_ & Hterm).
  exact (Hterm H1 H2 st' (or_introl (conj H3 eq_refl)) active_session H4).
Defined.

(** C5, counterexample to the claim as written: strategy 'immediate', an
    endpoint configured, a VPN report; the handler is called and suspends on
    the delivery; the delivery rejects; the run is over and the session is
    still [active], with no [terminatedReason] and no [terminatedAt]. *)
Lemma immediate_strategy_skipped_on_rejected_delivery :
  let st := open_engine "immediate" (Some hook) in
  let st1 := snd (test_checkSecurityStatus vpn_modules "session-0" st) in
  let settled := settle_notification test_clock 0 (Rejected "ECONNREFUSED") st1 in
  blockingStrategy (config st) = "immediate"
  /\ BreachHandler "session-0" [vpn_threat] ∈ trace st1
  /\ pending st1 = [{| pending_sessionId := "session-0";
                       pending_threats := [vpn_threat] |}]
  /\ fst settled = Some (Rejected "ECONNREFUSED")
  /\ pending (snd settled) = []
  /\ sessions (snd settled) !! "session-0" = Some active_session
  /\ status active_session = active
  /\ terminatedReason active_session = None
  /\ terminatedAt active_session = None.
Proof.
  cbv zeta. split; [vm_compute; reflexivity |].
  split.
  - apply list_elem_of_In. vm_compute. tauto.
  - vm_compute. repeat split.
Qed.


(** C9, witness: 'immediate', an endpoint configured, a VPN report, the
    delivery rejected. *)
Lemma rejected_notification_skips_strategy_witness :
  let st := open_engine "immediate" (Some hook) in
  let st1 := snd (test_checkSecurityStatus vpn_modules "session-0" st) in
  let settled :=
    settle_notification test_clock (length (pending st))
      (Rejected "ECONNREFUSED") st1 in
  sessions st !! "session-0" = Some active_session
  /\ notificationEndpoint (config st) = Some hook
  /\ truthy (Some hook) = true
  /\ fst (test_checkSecurityStatus vpn_modules "session-0" st)
     = Resolved (Verdict vpn_verdict)
  /\ secure vpn_verdict = false
  /\ sessions st1 = sessions st
  /\ pending st1 = pending st ++ [{| pending_sessionId := "session-0";
                                     pending_threats := threats vpn_verdict |}]
  /\ fst settled = Some (Rejected "ECONNREFUSED")
  /\ sessions (snd settled) = sessions st
  /\ sessions (snd settled) !! "session-0" = Some active_session
  /\ pending (snd settled) = pending st
  /\ (exists evs,
        trace (snd settled) = trace st ++ evs
        /\ Forall (fun ev => strategy_action ev = false) evs)
  /\ fst (test_checkSecurityStatus vpn_modules "session-0"
            (set_config (without_endpoint (config st)) st))
     = Resolved (Verdict vpn_verdict).
Proof.
  intros st st1 settled.
  assert (H1 : sessions st !! "session-0" = Some active_session)
    by (vm_compute; reflexivity).
  assert (H2 : notificationEndpoint (config st) = Some hook) by reflexivity.
  assert (H3 : truthy (Some hook) = true) by reflexivity.
  assert (H4 : fst (test_checkSecurityStatus vpn_modules "session-0" st)
               = Resolved (Verdict vpn_verdict))
    by (vm_compute; reflexivity).
  assert (H5 : secure vpn_verdict = false) by reflexivity.
  do 5 (split; [assumption |]).
  exact (rejected_notification_skips_strategy test_clock
           test_notifySecurityEvent vpn_modules "session-0" st active_session
           vpn_verdict hook "ECONNREFUSED" H1 H2 H3 H4 H5).
Defined.

(** ** The further properties at the concrete deployment *)

(** The engine of [open_engine] with the hook configured, after a check in
    which the VPN detector reported: the breach handler is suspended on its
    notification. *)
Definition suspended_engine : @Engine string string string nat :=
  snd (test_checkSecurityStatus vpn_modules "session-0"
         (open_engine "immediate" (Some hook))).


Definition mixed_operations : list (@Operation string) :=
  [OpCleanup "session-0"; OpInitialize "second viewer";
   OpCheckSecurityStatus "session-0";
   OpTerminateStream "session-0" "Manual termination";
   OpSettle 0 (Resolved tt)].

Definition later_operations : list (@Operation string) :=
  [OpCheckSecurityStatus "session-0"; OpCleanup "session-0";
   OpSettle 0 (Resolved tt);
   OpTerminateStream "session-0" "Manual termination"].

(** X2, witness: the endpoint is the empty string. *)
Lemma handleSecurityBreach_without_endpoint_witness :
  let st := open_engine "immediate" (Some EmptyString) in
  let st1 := after_breach_log test_clock "session-0" [vpn_threat] st in
  let st' := snd (handleSecurityBreach test_clock test_notifySecurityEvent
                    "session-0" [vpn_threat] st) in
  truthy (notificationEndpoint (config st)) = false
  /\ fst (handleSecurityBreach test_clock test_notifySecurityEvent
            "session-0" [vpn_threat] st)
     = Fulfilled (strategy_result (blockingStrategy (config st)) "session-0"
                    [vpn_threat] (strategy_timestamp test_clock "session-0" st1))
  /\ fst (handleSecurityBreach test_clock test_notifySecurityEvent
            "session-0" [vpn_threat] st)
     = Fulfilled (fst (blockingStrategy_switch test_clock "session-0"
                         [vpn_threat] st1))
  /\ st' = snd (blockingStrategy_switch test_clock "session-0" [vpn_threat] st1)
  /\ world st1 = snd (test_clock (world st))
  /\ pending st' = pending st
  /\ trace st' =
     trace st ++ BreachHandler "session-0" [vpn_threat]
     :: breach_log_events test_clock "session-0" [vpn_threat] st
     ++ [strategy_event (blockingStrategy (config st)) "session-0"]
  /\ ((blockingStrategy (config st) = "degraded"
       \/ blockingStrategy (config st) = "warning") ->
      sessions st' = sessions st)
  /\ (blockingStrategy (config st) <> "degraded" ->
      blockingStrategy (config st) <> "warning" ->
      sessions st' =
      match sessions st !! "session-0" with
      | Some s =>
          <["session-0" := terminate s "Security violation detected"
                             (fst (test_clock (snd (test_clock (world st)))))]>
            (sessions st)
      | None => sessions st
      end).
Proof.
  intros st st1 st'.
  assert (H1 : truthy (notificationEndpoint (config st)) = false)
    by reflexivity.
  split; [exact H1 |].
  exact (handleSecurityBreach_without_endpoint test_clock
           test_notifySecurityEvent "session-0" [vpn_threat] st H1).
Defined.

(** X3, witness. *)
Lemma handleSecurityBreach_notification_witness :
  let st := open_engine "immediate" (Some hook) in
  let st' := snd (handleSecurityBreach test_clock test_notifySecurityEvent
                    "session-0" [vpn_threat] st) in
  notificationEndpoint (config st) = Some hook
  /\ truthy (Some hook) = true
  /\ exists t,
       trace st' =
         trace st ++ BreachHandler "session-0" [vpn_threat]
         :: breach_log_events test_clock "session-0" [vpn_threat] st
         ++ [Notify hook {| notify_sessionId := "session-0";
                            notify_timestamp := t;
                            notify_threats := [vpn_threat];
                            notify_action := blockingStrategy (config st) |}]
       /\ world st' =
          test_notifySecurityEvent hook
            {| notify_sessionId := "session-0"; notify_timestamp := t;
               notify_threats := [vpn_threat];
               notify_action := blockingStrategy (config st) |}
            (snd (test_clock (snd (test_clock (world st))))).
Proof.
  intros st st'.
  assert (H1 : notificationEndpoint (config st) = Some hook) by reflexivity.
  assert (H2 : truthy (Some hook) = true) by reflexivity.
  split; [exact H1 |]. split; [exact H2 |].
  exact (handleSecurityBreach_notification test_clock test_notifySecurityEvent
           "session-0" [vpn_threat] st hook H1 H2).
Defined.

(** X4, witness. *)
Lemma sessions_never_removed_witness :
  let st := open_engine "immediate" (Some hook) in
  is_Some (sessions st !! "session-0")
  /\ is_Some (sessions (snd (run_operations test_clock test_generateUniqueId
                               test_generateSecurityToken
                               test_notifySecurityEvent
                               test_getClientFingerprint vpn_modules
                               mixed_operations st)) !! "session-0").
Proof.
  intros st.
  assert (H1 : is_Some (sessions st !! "session-0"))
    by (exists active_session; vm_compute; reflexivity).
  split; [exact H1 |].
  exact (sessions_never_removed test_clock test_generateUniqueId
           test_generateSecurityToken test_notifySecurityEvent
           test_getClientFingerprint vpn_modules mixed_operations
           "session-0" st H1).
Defined.

(** X5, witness. *)
Lemma session_identity_kept_witness :
  let st := open_engine "immediate" (Some hook) in
  forallb (fun op => negb (is_initialize op)) later_operations = true
  /\ identity <$> sessions (snd (run_operations test_clock
                                   test_generateUniqueId
                                   test_generateSecurityToken
                                   test_notifySecurityEvent
                                   test_getClientFingerprint vpn_modules
                                   later_operations st))
     = identity <$> sessions st.
Proof.
  intros st.
  assert (H1 : forallb (fun op : @Operation string => negb (is_initialize op))
                 later_operations = true) by reflexivity.
  split; [exact H1 |].
  exact (session_identity_kept test_clock test_generateUniqueId
           test_generateSecurityToken test_notifySecurityEvent
           test_getClientFingerprint vpn_modules later_operations st H1).
Defined.


(** X8, witness. *)
Lemma checkSecurityStatus_ignores_record_witness :
  let st := open_engine "immediate" None in
  let st' := set_sessions (sessions closed_engine) st in
  world st = world st'
  /\ (is_Some (sessions st !! "session-0")
      <-> is_Some (sessions st' !! "session-0"))
  /\ fst (test_checkSecurityStatus vpn_modules "session-0" st)
     = fst (test_checkSecurityStatus vpn_modules "session-0" st').
Proof.
  intros st st'.
  assert (H1 : world st = world st') by reflexivity.
  assert (H2 : is_Some (sessions st !! "session-0")
               <-> is_Some (sessions st' !! "session-0")).
  { split; intros _.
    - exists (close active_session "t2"). vm_compute. reflexivity.
    - exists active_session. vm_compute. reflexivity. }
  split; [exact H1 |]. split; [exact H2 |].
  exact (checkSecurityStatus_ignores_record test_clock
           test_notifySecurityEvent vpn_modules "session-0" st st' H1 H2).
Defined.

Definition first_init : @InitResult string :=
  {| init_sessionId := "session-0"; securityToken := "token";
     fingerprintData := "fingerprint" |}.

(** X9, witness. *)
Lemma initialize_then_known_witness :
  let st := fresh_engine "immediate" None in
  let st' := snd (test_initialize clean_modules "viewer" st) in
  fst (test_initialize clean_modules "viewer" st) = Resolved first_init
  /\ init_sessionId first_init = fst (test_generateUniqueId (world st))
  /\ (exists t,
        sessions st' !! init_sessionId first_init
        = Some (new_session "viewer" t))
  /\ isInitialized st' = true
  /\ fst (cleanup test_clock clean_modules (init_sessionId first_init) st')
     = true
  /\ (forall inv,
        fst (test_checkSecurityStatus clean_modules
               (init_sessionId first_init) st')
        <> Resolved (Invalid inv)).
Proof.
  intros st st'.
  assert (H1 : fst (test_initialize clean_modules "viewer" st)
               = Resolved first_init) by (vm_compute; reflexivity).
  split; [exact H1 |].
  exact (initialize_then_known test_clock test_generateUniqueId
           test_generateSecurityToken test_notifySecurityEvent
           test_getClientFingerprint clean_modules "viewer" st first_init H1).
Defined.

(** X10, witness. *)
Lemma cleanup_keeps_suspended_handler_witness :
  let st := suspended_engine in
  let st1 := snd (cleanup test_clock clean_modules "session-0" st) in
  let st2 := snd (settle_notification test_clock 0 (Resolved tt) st1) in
  sessions st !! "session-0" = Some active_session
  /\ pending st !! 0 = Some {| pending_sessionId := "session-0";
                               pending_threats := [vpn_threat] |}
  /\ blockingStrategy (config st) <> "degraded"
  /\ blockingStrategy (config st) <> "warning"
  /\ pending st1 = pending st
  /\ status <$> sessions st1 !! "session-0" = Some closed
  /\ status <$> sessions st2 !! "session-0" = Some terminated
  /\ closedAt <$> sessions st2 !! "session-0"
     = Some (Some (fst (test_clock (world st))))
  /\ terminatedReason <$> sessions st2 !! "session-0"
     = Some (Some "Security violation detected").
Proof.
  intros st st1 st2.
  assert (H1 : sessions st !! "session-0" = Some active_session)
    by (vm_compute; reflexivity).
  assert (H2 : pending st !! 0 = Some {| pending_sessionId := "session-0";
                                         pending_threats := [vpn_threat] |})
    by (vm_compute; reflexivity).
  assert (H3 : blockingStrategy (config st) <> "degraded")
    by (intros H; vm_compute in H; discriminate H).
  assert (H4 : blockingStrategy (config st) <> "warning")
    by (intros H; vm_compute in H; discriminate H).
  split; [exact H1 |]. split; [exact H2 |]. split; [exact H3 |].
  split; [exact H4 |].
  exact (cleanup_keeps_suspended_handler test_clock clean_modules "session-0"
           [vpn_threat] 0 st active_session H1 H2 H3 H4).
Defined.

(** ** The handler at the concrete deployment *)

Definition test_info_truthy (i : string) : bool :=
  negb (String.eqb i EmptyString).

Notation test_handler :=
  (handler test_clock test_generateUniqueId test_generateSecurityToken
     test_notifySecurityEvent test_getClientFingerprint vpn_modules
     test_info_truthy "{}").

Definition plain_body (sessionId : option string) : @Body string :=
  {| body_serviceName := None; body_sensitivityLevel := None;
     body_blockingStrategy := None; body_notificationEndpoint := None;
     body_loggingLevel := None; body_sessionInfo := None;
     body_sessionId := sessionId; body_reason := None |}.

Definition test_request (verb : string) (endpoint : option string)
    (querySessionId bodySessionId : option string) : @Request string :=
  {| method := verb; authorization := Some "Bearer secret";
     body := Some (plain_body bodySessionId);
     query_endpoint := endpoint; query_sessionId := querySessionId |}.

Definition check_request : @Request string :=
  test_request "GET" (Some "check") (Some "session-0") None.

Definition cleanup_request : @Request string :=
  test_request "POST" (Some "cleanup") None (Some "session-0").

Definition terminate_request : @Request string :=
  test_request "POST" (Some "terminate") (Some "session-0") None.

Definition delete_request : @Request string :=
  test_request "DELETE" (Some "terminate") None (Some "session-0").

Example bearer_key : apiKey_of check_request = Some "secret".
Proof. reflexivity. Qed.

(** X12, witness. *)
Lemma apiKey_of_authorization_witness :
  authorization check_request = Some "Bearer secret"
  /\ (no_space "Bearer secret" = true -> apiKey_of check_request = None)
  /\ (forall scheme token,
        "Bearer secret" = scheme +:+ String space token ->
        no_space scheme = true -> no_space token = true ->
        apiKey_of check_request = Some token)
  /\ (forall scheme token rest,
        "Bearer secret" = scheme +:+ String space (token +:+ String space rest) ->
        no_space scheme = true -> no_space token = true ->
        apiKey_of check_request = Some token)
  /\ (forall scheme rest,
        "Bearer secret" = scheme +:+ String space (String space rest) ->
        no_space scheme = true ->
        apiKey_of check_request = Some EmptyString
        /\ truthy (apiKey_of check_request) = false).
Proof.
  assert (H1 : authorization check_request = Some "Bearer secret")
    by reflexivity.
  split; [exact H1 |].
  exact (apiKey_of_authorization check_request "Bearer secret" H1).
Defined.

(** X14, witness. *)
Lemma handler_check_always_invalid_witness :
  method check_request <> "OPTIONS"
  /\ truthy (apiKey_of check_request) = true
  /\ body check_request = Some (plain_body None)
  /\ query_endpoint check_request = Some "check"
  /\ truthy_string (or_else (query_sessionId check_request)
                      (body_sessionId (plain_body None)))
     = Some "session-0"
  /\ result (test_handler check_request 7) =
     Resolved {| statusCode := 200;
                 json := StatusJson
                   (Invalid {| error := "Invalid session";
                               invalid_secure := false;
                               invalid_timestamp := "t7" |}) |}
  /\ console_errors (test_handler check_request 7) = []
  /\ outside (test_handler check_request 7) = 8.
Proof.
  assert (H1 : method check_request <> "OPTIONS")
    by (intros H; discriminate H).
  assert (H2 : truthy (apiKey_of check_request) = true) by reflexivity.
  assert (H3 : body check_request = Some (plain_body None)) by reflexivity.
  assert (H4 : query_endpoint check_request = Some "check") by reflexivity.
  assert (H5 : truthy_string (or_else (query_sessionId check_request)
                                (body_sessionId (plain_body None)))
               = Some "session-0") by reflexivity.
  do 5 (split; [assumption |]).
  destruct (handler_check_always_invalid test_clock test_generateUniqueId
              test_generateSecurityToken test_notifySecurityEvent
              test_getClientFingerprint vpn_modules test_info_truthy "{}"
              check_request 7 (plain_body None) "session-0" H1 H2 H3 H4 H5)
    as (Hres & Herr & Hout & _).
  split; [exact Hres |]. split; [exact Herr | exact Hout].
Defined.

(** X15, witness. *)
Lemma handler_cleanup_reports_success_witness :
  method cleanup_request = "POST"
  /\ truthy (apiKey_of cleanup_request) = true
  /\ body cleanup_request = Some (plain_body (Some "session-0"))
  /\ query_endpoint cleanup_request = Some "cleanup"
  /\ truthy_string (body_sessionId (plain_body (Some "session-0")))
     = Some "session-0"
  /\ result (test_handler cleanup_request 7) =
     Resolved {| statusCode := 200;
                 json := SuccessJson "success" "Session cleaned up" |}
  /\ outside (test_handler cleanup_request 7) = 7.
Proof.
  assert (H1 : method cleanup_request = "POST") by reflexivity.
  assert (H2 : truthy (apiKey_of cleanup_request) = true) by reflexivity.
  assert (H3 : body cleanup_request = Some (plain_body (Some "session-0")))
    by reflexivity.
  assert (H4 : query_endpoint cleanup_request = Some "cleanup")
    by reflexivity.
  assert (H5 : truthy_string (body_sessionId (plain_body (Some "session-0")))
               = Some "session-0") by reflexivity.
  do 5 (split; [assumption |]).
  destruct (handler_cleanup_reports_success test_clock test_generateUniqueId
              test_generateSecurityToken test_notifySecurityEvent
              test_getClientFingerprint vpn_modules test_info_truthy "{}"
              cleanup_request 7 (plain_body (Some "session-0")) "session-0"
              H1 H2 H3 H4 H5)
    as (Hres & Hout & _).
  split; [exact Hres | exact Hout].
Defined.

(** X16, witness: the session id is in the query string only, where
    'terminate' does not look. *)
Lemma handler_terminate_witness :
  method terminate_request = "POST"
  /\ truthy (apiKey_of terminate_request) = true
  /\ body terminate_request = Some (plain_body None)
  /\ query_endpoint terminate_request = Some "terminate"
  /\ query_sessionId terminate_request = Some "session-0"
  /\ result (test_handler terminate_request 7) =
     Resolved {| statusCode := 400;
                 json := ErrorJson "Session ID is required" None |}.
Proof.
  assert (H1 : method terminate_request = "POST") by reflexivity.
  assert (H2 : truthy (apiKey_of terminate_request) = true) by reflexivity.
  assert (H3 : body terminate_request = Some (plain_body None))
    by reflexivity.
  assert (H4 : query_endpoint terminate_request = Some "terminate")
    by reflexivity.
  do 4 (split; [assumption |]). split; [reflexivity |].
  destruct (handler_terminate test_clock test_generateUniqueId
              test_generateSecurityToken test_notifySecurityEvent
              test_getClientFingerprint vpn_modules test_info_truthy "{}"
              terminate_request 7 (plain_body None) H1 H2 H3 H4)
    as (Hnone & _).
  exact (Hnone eq_refl).
Defined.

(** X17, witness: a DELETE on 'terminate': 405, whatever the session id. *)
Lemma handler_status_table_witness :
  method delete_request <> "OPTIONS"
  /\ truthy (apiKey_of delete_request) = true
  /\ body delete_request = Some (plain_body (Some "session-0"))
  /\ exists j,
       result (test_handler delete_request 7)
       = Resolved {| statusCode := 405; json := j |}.
Proof.
  assert (H1 : method delete_request <> "OPTIONS")
    by (intros H; discriminate H).
  assert (H2 : truthy (apiKey_of delete_request) = true) by reflexivity.
  assert (H3 : body delete_request = Some (plain_body (Some "session-0")))
    by reflexivity.
  do 3 (split; [assumption |]).
  destruct (handler_status_table test_clock test_generateUniqueId
              test_generateSecurityToken test_notifySecurityEvent
              test_getClientFingerprint vpn_modules test_info_truthy "{}"
              delete_request 7 (plain_body (Some "session-0")) H1 H2 H3)
    as (code & j & Hres & H405 & _).
  exists j. rewrite Hres.
  assert (Hcode : code = 405).
  { apply H405. split; [intros H; discriminate H |]. right. left.
    reflexivity. }
  by rewrite Hcode.
Defined.

(** X7, witness: the handler suspended in [suspended_engine], its delivery
    resolved under 'immediate'. *)
Lemma settle_notification_resolved_witness :
  let st := suspended_engine in
  let p := {| pending_sessionId := "session-0";
              pending_threats := [vpn_threat] |} in
  let settled := settle_notification test_clock 0 (Resolved tt) st in
  pending st !! 0 = Some p
  /\ fst settled =
     Some (Resolved
             (Terminate {| terminate_action := "terminate";
                           reason := "Security violation detected";
                           terminate_sessionId := "session-0";
                           terminate_timestamp :=
                             strategy_timestamp test_clock "session-0" st |}))
  /\ pending (snd settled) = []
  /\ trace (snd settled)
     = trace st ++ [TerminateStream "session-0" "Security violation detected"]
  /\ sessions (snd settled) !! "session-0"
     = Some (terminate active_session "Security violation detected"
               (fst (test_clock (world st)))).
Proof.
  intros st p settled. subst settled.
  assert (H1 : pending st !! 0 = Some p) by (vm_compute; reflexivity).
  split; [exact H1 |].
  destruct (settle_notification_resolved test_clock 0 st) as (_ & Hsome).
  destruct (Hsome p H1)
    as (Hval & _ & _ & _ & Hpen & _ & Htr & _ & Hterm).
  split; [exact Hval |]. split; [rewrite Hpen; vm_compute; reflexivity |].
  split; [exact Htr |].
  rewrite Hterm by (intros H; vm_compute in H; discriminate H).
  assert (Hs : sessions st !! "session-0" = Some active_session)
    by (vm_compute; reflexivity).
  cbn [pending_sessionId p]. rewrite Hs. apply lookup_insert_eq.
Defined.
